(** * Logs analysis: the reporting views, the report queries and the
      Python driver code of [logs-analysis/logs_analysis.py]

    The program is a Python script that sends SQL text to a PostgreSQL
    database through [psycopg2] and prints three reports.  The development
    has three layers:

    - the relational layer: the tables [log], [articles] and [authors] as
      lists of rows, and every SQL statement of the script as a function on
      them (group by, join, aggregate, order by, limit);
    - the driver layer: a state-and-exception monad over a world made of the
      database server, the open connections and the standard output, with
      the Python objects the script handles (connection, method object,
      cursor);
    - the script itself: [connect], [initialize_views], the three [select_*]
      operations and the three [print_*] procedures, written in that monad. *)

From Stdlib Require Import QArith Qabs Ascii.
From stdpp Require Import base list strings sorting lexico pretty.

Local Open Scope string_scope.
Local Open Scope nat_scope.
Local Open Scope list_scope.

(** ** Data model *)

(** A point in time, with the fields of a Python [datetime]. *)
Record timestamp := Timestamp {
  year : nat; month : nat; day : nat;
  hour : nat; minute : nat; second : nat; microsecond : nat
}.

Global Instance timestamp_eq_dec : EqDecision timestamp.
Proof. solve_decision. Defined.

Definition timestamp_key (t : timestamp) : nat * (nat * (nat * (nat * (nat * (nat * nat))))) :=
  (year t, (month t, (day t, (hour t, (minute t, (second t, microsecond t)))))).

(** Chronological order: lexicographic on the fields. *)
Definition timestamp_lt (a b : timestamp) : Prop :=
  lexico (timestamp_key a) (timestamp_key b).
Definition timestamp_le (a b : timestamp) : Prop :=
  a = b ∨ timestamp_lt a b.

Global Instance timestamp_lt_dec a b : Decision (timestamp_lt a b).
Proof. unfold timestamp_lt. apply _. Defined.
Global Instance timestamp_le_dec a b : Decision (timestamp_le a b).
Proof. unfold timestamp_le. apply _. Defined.

(** A timestamp falls on the calendar day of [d] when it has the year, the
    month and the day of [d]; [d] is a date when its time of day is zero. *)
Definition on_calendar_day (d t : timestamp) : Prop :=
  year t = year d ∧ month t = month d ∧ day t = day d.
Definition midnight (d : timestamp) : Prop :=
  hour d = 0 ∧ minute d = 0 ∧ second d = 0 ∧ microsecond d = 0.

Global Instance on_calendar_day_dec d t : Decision (on_calendar_day d t).
Proof. unfold on_calendar_day. apply _. Defined.
Global Instance midnight_dec d : Decision (midnight d).
Proof. unfold midnight. apply _. Defined.

(** [date_trunc('day', t)]: midnight of the day of [t]. *)
Definition date_trunc_day (t : timestamp) : timestamp :=
  {| year := year t; month := month t; day := day t;
     hour := 0; minute := 0; second := 0; microsecond := 0 |}.

(** The three tables, with the columns the statements read.  No column
    holds a null. *)
Record log_row := LogRow {
  log_path : string; log_status : string; log_time : timestamp }.
Record articles_row := ArticlesRow {
  articles_slug : string; articles_title : string; articles_author : Z }.
Record authors_row := AuthorsRow {
  authors_id : Z; authors_name : string }.

Global Instance log_row_eq_dec : EqDecision log_row.
Proof. solve_decision. Defined.
Global Instance articles_row_eq_dec : EqDecision articles_row.
Proof. solve_decision. Defined.
Global Instance authors_row_eq_dec : EqDecision authors_row.
Proof. solve_decision. Defined.

Record database := Database {
  log : list log_row;
  articles : list articles_row;
  authors : list authors_row
}.

(** ** Relational operators *)

(** [group by key]: one group per distinct key, holding the rows of that
    key.  SQL leaves the order of the groups open; every statement of the
    script sorts them afterwards. *)
Definition group_by {A K} `{EqDecision K} (key : A → K) (rows : list A)
    : list (K * list A) :=
  (λ k, (k, filter (λ r, key r = k) rows)) <$> remove_dups (key <$> rows).

(** [order by key desc] on a count, and [order by key] on a date.  Rows
    with equal keys come in the order the merge sort leaves them; SQL does
    not fix it. *)
Definition desc_by {A} (key : A → nat) : relation A :=
  λ a b, key b ≤ key a.
Definition asc_by_date {A} (key : A → timestamp) : relation A :=
  λ a b, timestamp_le (key a) (key b).

Global Instance desc_by_dec {A} (key : A → nat) : RelDecision (desc_by key).
Proof. intros a b. unfold desc_by. apply _. Defined.
Global Instance asc_by_date_dec {A} (key : A → timestamp) :
  RelDecision (asc_by_date key).
Proof. intros a b. unfold asc_by_date. apply _. Defined.

Definition order_by_desc {A} (key : A → nat) : list A → list A :=
  merge_sort (desc_by key).
Definition order_by_date {A} (key : A → timestamp) : list A → list A :=
  merge_sort (asc_by_date key).

(** ** The views *)

(** [create or replace view most_viewed_paths as
       select path, count( * ) as pv from log group by path order by pv desc] *)
Record most_viewed_paths_row := MostViewedPathsRow {
  mvp_path : string; mvp_pv : nat }.

Definition most_viewed_paths (db : database) : list most_viewed_paths_row :=
  order_by_desc mvp_pv
    ((λ g, {| mvp_path := g.1; mvp_pv := length g.2 |})
       <$> group_by log_path (log db)).

(** [create or replace view most_viewed_articles as
       select title, author as author_id, pv
         from articles, most_viewed_paths
         where concat('/article/', articles.slug) = most_viewed_paths.path
         order by pv desc] *)
Record most_viewed_articles_row := MostViewedArticlesRow {
  mva_title : string; mva_author_id : Z; mva_pv : nat }.

Definition most_viewed_articles (db : database) : list most_viewed_articles_row :=
  order_by_desc mva_pv
    (a ← articles db;
     p ← most_viewed_paths db;
     if decide ("/article/" +:+ articles_slug a = mvp_path p)
     then [ {| mva_title := articles_title a;
               mva_author_id := articles_author a;
               mva_pv := mvp_pv p |} ]
     else []).

(** [create or replace view daily_error_rates as
       select date_trunc('day', time) as date,
              100.0 * count(case when status = '404 NOT FOUND' then 1 end)
                    / count( * ) as error_rate
         from log group by date order by date]

    [count(case ... end)] counts the rows where the case expression is not
    null, the rows whose status is ['404 NOT FOUND'].  The quotient is a
    [numeric]; it is taken exact here, as a rational.  A group is never
    empty, so the divisor is never zero. *)
Record daily_error_rates_row := DailyErrorRatesRow {
  der_date : timestamp; der_error_rate : Q }.

Definition count_star {A} (g : list A) : nat := length g.
Definition count_not_found (g : list log_row) : nat :=
  length (filter (λ r, log_status r = "404 NOT FOUND") g).

Definition error_rate (g : list log_row) : Q :=
  (100 * inject_Z (Z.of_nat (count_not_found g)) / inject_Z (Z.of_nat (count_star g)))%Q.

Definition daily_error_rates (db : database) : list daily_error_rates_row :=
  order_by_date der_date
    ((λ g, {| der_date := g.1; der_error_rate := error_rate g.2 |})
       <$> group_by (λ r, date_trunc_day (log_time r)) (log db)).

(** The rows of a day: what [group by date] puts in the group of [d]. *)
Definition rows_of_day (d : timestamp) (l : list log_row) : list log_row :=
  filter (λ r, date_trunc_day (log_time r) = d) l.

(** ** The report queries *)

(** A result set as [fetchall] hands it to Python: a list of tuples.  A
    [bigint] arrives as a Python integer; the [numeric] that [sum] makes of
    [bigint]s has no fractional digits and is kept as an integer as well;
    a [numeric] quotient is kept as the rational it stands for; a timestamp
    arrives as a [datetime]. *)

(** [select title, pv from most_viewed_articles limit 3]

    The statement has no [order by] of its own: the rows come in the order
    the view delivers them. *)
Definition select_three_most_viewed_articles_rows (db : database)
    : list (string * Z) :=
  take 3 ((λ r, (mva_title r, Z.of_nat (mva_pv r))) <$> most_viewed_articles db).

(** [select name, sum(pv) as authors_total_pv
       from authors, most_viewed_articles
       where authors.id = most_viewed_articles.author_id
       group by name
       order by authors_total_pv desc] *)
Definition articles_of (mva : list most_viewed_articles_row) (a : authors_row)
    : list (string * nat) :=
  m ← mva;
  if decide (authors_id a = mva_author_id m)
  then [ (authors_name a, mva_pv m) ]
  else [].

Definition authors_join (db : database) : list (string * nat) :=
  a ← authors db;
  articles_of (most_viewed_articles db) a.

Definition select_most_viewed_authors_rows (db : database) : list (string * Z) :=
  (λ r : string * nat, (r.1, Z.of_nat r.2))
    <$> order_by_desc snd
          ((λ g : string * list (string * nat), (g.1, sum_list (snd <$> g.2)))
             <$> group_by fst (authors_join db)).

(** The views of one author: the sum of [pv] over the rows of
    [most_viewed_articles] that carry the author's id. *)
Definition author_views (db : database) (a : authors_row) : nat :=
  sum_list (mva_pv <$> filter (λ m, mva_author_id m = authors_id a)
                         (most_viewed_articles db)).

(** [select * from daily_error_rates where error_rate > 1.0 order by date] *)
Global Instance Qlt_dec (x y : Q) : Decision (x < y)%Q.
Proof. unfold Qlt. apply _. Defined.

Definition select_daily_error_rate_more_than_one_percent_rows (db : database)
    : list (timestamp * Q) :=
  (λ r, (der_date r, der_error_rate r))
    <$> order_by_date der_date
          (filter (λ r, (1 < der_error_rate r)%Q) (daily_error_rates db)).

(** ** The driver layer: PostgreSQL and psycopg2 as the script sees them *)

Inductive view :=
  | View_most_viewed_paths
  | View_most_viewed_articles
  | View_daily_error_rates.

Global Instance view_eq_dec : EqDecision view.
Proof. solve_decision. Defined.

(** A statement of the script: the view it creates or replaces, the views
    its [from] clause names, and the rows it returns on given tables. *)
Record statement (R : Type) := Statement {
  stmt_creates : option view;
  stmt_reads : list view;
  stmt_rows : database → list R
}.
Global Arguments Statement {_} _ _ _.
Global Arguments stmt_creates {_} _.
Global Arguments stmt_reads {_} _.
Global Arguments stmt_rows {_} _ _.

Definition query_initialize_view_most_viewed_paths : statement Empty_set :=
  Statement (Some View_most_viewed_paths) [] (λ _, []).
Definition query_initialize_view_most_viewed_articles : statement Empty_set :=
  Statement (Some View_most_viewed_articles) [View_most_viewed_paths] (λ _, []).
Definition query_initialize_view_daily_error_rates : statement Empty_set :=
  Statement (Some View_daily_error_rates) [] (λ _, []).

Definition query_select_three_most_viewed_articles : statement (string * Z) :=
  Statement None [View_most_viewed_articles] select_three_most_viewed_articles_rows.
Definition query_select_most_viewed_authors : statement (string * Z) :=
  Statement None [View_most_viewed_articles] select_most_viewed_authors_rows.
Definition query_select_daily_error_rate_more_than_one_percent
    : statement (timestamp * Q) :=
  Statement None [View_daily_error_rates]
    select_daily_error_rate_more_than_one_percent_rows.

(** Exceptions.  The first four are subclasses of [psycopg2.Error]. *)
Inductive exception :=
  | OperationalError                        (* the connection cannot be made *)
  | ProgrammingError                        (* a relation does not exist *)
  | InternalError                           (* the transaction is aborted *)
  | InterfaceError                          (* the connection is closed *)
  | AttributeError (type attr : string)     (* 'type' object has no attribute 'attr' *)
  | TypeError.                              (* the object is not callable *)

Definition is_psycopg2_Error (e : exception) : bool :=
  match e with
  | OperationalError | ProgrammingError | InternalError | InterfaceError => true
  | AttributeError _ _ | TypeError => false
  end.

(** A connection is in no transaction, in a transaction that sees a set of
    views (the committed ones and those it created itself), or in an
    aborted transaction. *)
Inductive transaction :=
  | Idle
  | InTransaction (visible : list view)
  | Aborted.

Record connection := ConnectionState {
  conn_closed : bool;
  conn_transaction : transaction
}.

Record world := World {
  server_database : string;        (* the one database the server hosts *)
  tables : database;
  views : list view;               (* the committed view definitions *)
  connections : list connection;   (* every connection made so far *)
  stdout : list string             (* the lines printed so far *)
}.

Definition set_views (vs : list view) (w : world) : world :=
  World (server_database w) (tables w) vs (connections w) (stdout w).
Definition set_connections (cs : list connection) (w : world) : world :=
  World (server_database w) (tables w) (views w) cs (stdout w).
Definition set_stdout (out : list string) (w : world) : world :=
  World (server_database w) (tables w) (views w) (connections w) out.

(** The Python objects of the script. *)
Inductive object :=
  | Connection (n : nat)                    (* psycopg2 connection number n *)
  | Cursor (n : nat)                        (* a cursor of connection n *)
  | Method (self : object) (name : string). (* a bound method, not called *)

Definition type_name (o : object) : string :=
  match o with
  | Connection _ => "psycopg2.extensions.connection"
  | Cursor _ => "psycopg2.extensions.cursor"
  | Method _ _ => "builtin_function_or_method"
  end.

(** The attributes the script may ask of each kind of object. *)
Definition attributes (o : object) : list string :=
  match o with
  | Connection _ => ["cursor"; "commit"; "rollback"; "close"]
  | Cursor _ => ["execute"; "fetchall"; "close"]
  | Method _ _ => ["__call__"; "__self__"; "__name__"; "__doc__"]
  end.

(** *** The monad of Python computations *)

Inductive outcome (A : Type) :=
  | Returned (a : A)
  | Raised (e : exception).
Global Arguments Returned {_} _.
Global Arguments Raised {_} _.

Definition Py (A : Type) : Type := world → world * outcome A.

Global Instance Py_ret : MRet Py := λ A a w, (w, Returned a).
Global Instance Py_bind : MBind Py := λ A B f m w,
  match m w with
  | (w', Returned a) => f a w'
  | (w', Raised e) => (w', Raised e)
  end.

Definition raise {A} (e : exception) : Py A := λ w, (w, Raised e).

(** [try: body except <class> as e: handler e] *)
Definition try_except {A} (body : Py A) (class : exception → bool)
    (handler : exception → Py A) : Py A := λ w,
  match body w with
  | (w', Raised e) => if class e then handler e w' else (w', Raised e)
  | r => r
  end.

(** [for x in l: body x] *)
Fixpoint for_each {A} (l : list A) (body : A → Py unit) : Py unit :=
  match l with
  | [] => mret tt
  | x :: l => body x;; for_each l body
  end.

Definition print (line : string) : Py unit := λ w,
  (set_stdout (stdout w ++ [line]) w, Returned tt).

(** *** Attribute access and the driver's methods *)

(** [o.name], not called. *)
Definition getattr (o : object) (name : string) : Py object :=
  if decide (name ∈ attributes o) then mret (Method o name)
  else raise (AttributeError (type_name o) name).

(** [psycopg2.connect(database=db_name)] *)
Definition psycopg2_connect (db_name : string) : Py object := λ w,
  if decide (db_name = server_database w)
  then (set_connections (connections w ++ [ConnectionState false Idle]) w,
        Returned (Connection (length (connections w))))
  else (w, Raised OperationalError).

Definition with_connection {A} (n : nat)
    (k : connection → world → world * outcome A) : Py A := λ w,
  match connections w !! n with
  | Some c => if conn_closed c then (w, Raised InterfaceError) else k c w
  | None => (w, Raised InterfaceError)
  end.

Definition set_transaction (n : nat) (t : transaction) (w : world) : world :=
  set_connections (<[n := ConnectionState false t]> (connections w)) w.

(** The views a transaction sees after a statement: a created view is added
    when it is new, and stands for the same name when it is replaced. *)
Definition visible_after {R} (q : statement R) (visible : list view) : list view :=
  match stmt_creates q with
  | Some v => if decide (v ∈ visible) then visible else v :: visible
  | None => visible
  end.

(** What the server does with a statement sent on connection [n]: the first
    statement opens a transaction; a statement that names a view the
    transaction does not see fails and aborts the transaction; a created
    view is seen by the transaction only, until it commits. *)
Definition server_execute {R} (n : nat) (q : statement R) : Py (list R) :=
  with_connection n (λ c w,
    match conn_transaction c with
    | Aborted => (w, Raised InternalError)
    | t =>
      let visible := match t with InTransaction vs => vs | _ => views w end in
      if decide (stmt_reads q ⊆ visible)
      then (set_transaction n (InTransaction (visible_after q visible)) w,
            Returned (stmt_rows q (tables w)))
      else (set_transaction n Aborted w, Raised ProgrammingError)
    end).

Definition server_commit (n : nat) : Py unit :=
  with_connection n (λ c w,
    match conn_transaction c with
    | InTransaction vs => (set_views vs (set_transaction n Idle w), Returned tt)
    | _ => (set_transaction n Idle w, Returned tt)
    end).

(** Closing discards the transaction in progress. *)
Definition server_close (n : nat) : Py unit := λ w,
  match connections w !! n with
  | Some _ => (set_connections (<[n := ConnectionState true Idle]> (connections w)) w,
               Returned tt)
  | None => (w, Raised InterfaceError)
  end.

(** [m()] for the method object [m = conn.cursor]. *)
Definition call_cursor (m : object) : Py object :=
  match m with
  | Method (Connection n) "cursor" => with_connection n (λ _ w, (w, Returned (Cursor n)))
  | _ => raise TypeError
  end.

(** [cursor.execute(q)]: look the attribute up, then call it.  The rows the
    statement produces stay in the cursor; they are passed on explicitly. *)
Definition execute {R} (cursor : object) (q : statement R) : Py (list R) :=
  m ← getattr cursor "execute";
  match m with
  | Method (Cursor n) _ => server_execute n q
  | _ => raise TypeError
  end.

(** [cursor.fetchall()], on the rows the cursor holds. *)
Definition fetchall {R} (cursor : object) (held : list R) : Py (list R) :=
  m ← getattr cursor "fetchall";
  match m with
  | Method (Cursor n) _ => with_connection n (λ _ w, (w, Returned held))
  | _ => raise TypeError
  end.

(** [conn.commit()] and [conn.close()] *)
Definition commit (conn : object) : Py unit :=
  m ← getattr conn "commit";
  match m with
  | Method (Connection n) _ => server_commit n
  | _ => raise TypeError
  end.

Definition close (conn : object) : Py unit :=
  m ← getattr conn "close";
  match m with
  | Method (Connection n) _ => server_close n
  | _ => raise TypeError
  end.

(** ** The script *)

(** [connect(db_name)]: the second component is the attribute [conn.cursor]
    as written in the script, without a call. *)
Definition connect (db_name : string) : Py (object * object) :=
  try_except
    (conn ← psycopg2_connect db_name;
     cursor ← getattr conn "cursor";
     mret (conn, cursor))
    is_psycopg2_Error
    (λ e, raise e).

Definition initialize_views : Py unit :=
  '(conn, cursor) ← connect "news";
  _ ← execute cursor query_initialize_view_most_viewed_paths;
  _ ← execute cursor query_initialize_view_most_viewed_articles;
  _ ← execute cursor query_initialize_view_daily_error_rates;
  commit conn;;
  close conn.

Definition select_three_most_viewed_articles : Py (list (string * Z)) :=
  '(conn, cursor) ← connect "news";
  held ← execute cursor query_select_three_most_viewed_articles;
  result ← fetchall cursor held;
  close conn;;
  mret result.

Definition select_most_viewed_authors : Py (list (string * Z)) :=
  '(conn, cursor) ← connect "news";
  held ← execute cursor query_select_most_viewed_authors;
  result ← fetchall cursor held;
  close conn;;
  mret result.

Definition select_daily_error_rate_more_than_one_percent
    : Py (list (timestamp * Q)) :=
  '(conn, cursor) ← connect "news";
  held ← execute cursor query_select_daily_error_rate_more_than_one_percent;
  result ← fetchall cursor held;
  close conn;;
  mret result.

(** *** Formatting *)

Definition quote : string := String (Ascii.ascii_of_nat 34) EmptyString.

(** [str(n)] for an integer. *)
Definition str (n : Z) : string := pretty n.

(** [strftime] directives: [%B] the English month name (a [datetime] has a
    month from 1 to 12), [%d] the day on two digits, [%Y] the year in
    decimal, as the C library prints it: without leading zeros. *)
Definition month_name (m : nat) : string :=
  match m with
  | 1 => "January" | 2 => "February" | 3 => "March" | 4 => "April"
  | 5 => "May" | 6 => "June" | 7 => "July" | 8 => "August"
  | 9 => "September" | 10 => "October" | 11 => "November" | 12 => "December"
  | _ => EmptyString
  end.

Definition zero_pad (width : nat) (n : nat) : string :=
  let digits := pretty n in
  String.concat EmptyString (replicate (width - String.length digits) "0") +:+ digits.

(** [t.strftime("%B %d, %Y")] *)
Definition strftime_B_d_Y (t : timestamp) : string :=
  month_name (month t) +:+ " " +:+ zero_pad 2 (day t) +:+ ", " +:+ pretty (year t).

(** [round(x, 1)] on a [Decimal], as Python 3 computes it: the sign and
    the coefficient of the result, whose exponent is -1; the coefficient is
    the nearest number of tenths, and a tie goes to the even one. *)
Definition round_half_even (n : Z) (d : positive) : Z :=
  let f := (n / Z.pos d)%Z in
  let r := (n mod Z.pos d)%Z in
  if decide (2 * r < Z.pos d)%Z then f
  else if decide (Z.pos d < 2 * r)%Z then (f + 1)%Z
  else if Z.even f then f else (f + 1)%Z.

Definition round1 (x : Q) : bool * Z :=
  ((Qnum x <? 0)%Z, round_half_even (10 * Z.abs (Qnum x)) (Qden x)).

(** [str(d)] for a [Decimal] of exponent -1. *)
Definition str_Decimal1 (d : bool * Z) : string :=
  (if d.1 then "-" else EmptyString)
    +:+ pretty (d.2 / 10)%Z +:+ "." +:+ pretty (d.2 mod 10)%Z.

(** The line printed for a row of each report. *)
Definition article_line (article : string * Z) : string :=
  quote +:+ article.1 +:+ quote +:+ " --- " +:+ str article.2 +:+ " views".
Definition author_line (author : string * Z) : string :=
  author.1 +:+ " --- " +:+ str author.2 +:+ " views".
Definition rate_line (rate : timestamp * Q) : string :=
  strftime_B_d_Y rate.1 +:+ " --- " +:+ str_Decimal1 (round1 rate.2) +:+ "% errors".

(** *** The three reports

    Each procedure calls the query operation of the same report; the
    procedures are written over the operation they call. *)
Section reports.
Context (select_articles select_authors : Py (list (string * Z))).
Context (select_rates : Py (list (timestamp * Q))).

Definition print_three_most_viewed_articles_over : Py unit :=
  print "1. The most popular three articles of all time:";;
  articles ← select_articles;
  for_each articles (λ article, print (article_line article));;
  print EmptyString.

Definition print_most_viewed_authors_over : Py unit :=
  print "2. The most popular article authors of all time:";;
  authors ← select_authors;
  for_each authors (λ author, print (author_line author));;
  print EmptyString.

Definition print_daily_error_rate_more_than_one_percent_over : Py unit :=
  print "3. The dates when more than 1% of requests lead to errors:";;
  rates ← select_rates;
  for_each rates (λ rate, print (rate_line rate));;
  print EmptyString.
End reports.

Definition print_three_most_viewed_articles : Py unit :=
  print_three_most_viewed_articles_over select_three_most_viewed_articles.
Definition print_most_viewed_authors : Py unit :=
  print_most_viewed_authors_over select_most_viewed_authors.
Definition print_daily_error_rate_more_than_one_percent : Py unit :=
  print_daily_error_rate_more_than_one_percent_over
    select_daily_error_rate_more_than_one_percent.

(** [if __name__ == '__main__'] *)
Definition main : Py unit :=
  initialize_views;;
  print_three_most_viewed_articles;;
  print_most_viewed_authors;;
  print_daily_error_rate_more_than_one_percent.

(** ** Example inputs *)

Definition at_time (y m d h mi s : nat) : timestamp := Timestamp y m d h mi s 0.

(** Two articles, each requested once. *)
Definition tie_db : database :=
  {| log := [ LogRow "/article/a" "200 OK" (at_time 2016 7 17 10 0 0);
              LogRow "/article/b" "200 OK" (at_time 2016 7 17 11 0 0) ];
     articles := [ ArticlesRow "a" "Foo" 1; ArticlesRow "b" "Bar" 2 ];
     authors := [ AuthorsRow 1 "Ann"; AuthorsRow 2 "Bob" ] |}.

(** Two authors of the same name, with one article each, requested twice
    and once. *)
Definition namesake_db : database :=
  {| log := [ LogRow "/article/a" "200 OK" (at_time 2016 7 17 10 0 0);
              LogRow "/article/a" "200 OK" (at_time 2016 7 17 11 0 0);
              LogRow "/article/b" "200 OK" (at_time 2016 7 18 12 0 0) ];
     articles := [ ArticlesRow "a" "Foo" 1; ArticlesRow "b" "Bar" 2 ];
     authors := [ AuthorsRow 1 "Ann"; AuthorsRow 2 "Ann" ] |}.

(** One day with five successful requests and one that was not found. *)
Definition one_day_db : database :=
  {| log := [ LogRow "/article/a" "200 OK" (at_time 2016 7 17 1 0 0);
              LogRow "/article/a" "200 OK" (at_time 2016 7 17 2 0 0);
              LogRow "/article/a" "404 NOT FOUND" (at_time 2016 7 17 3 0 0);
              LogRow "/article/a" "200 OK" (at_time 2016 7 17 4 0 0);
              LogRow "/article/a" "200 OK" (at_time 2016 7 17 5 0 0);
              LogRow "/article/a" "200 OK" (at_time 2016 7 17 6 0 0) ];
     articles := [ ArticlesRow "a" "Foo" 1 ];
     authors := [ AuthorsRow 1 "Ann" ] |}.

(** One day with 195 requests, two of them not found: a rate a little
    above one percent. *)
Definition just_above_one_percent_db : database :=
  {| log := replicate 193 (LogRow "/article/a" "200 OK" (at_time 2016 7 17 1 0 0))
            ++ replicate 2 (LogRow "/nowhere" "404 NOT FOUND"
                              (at_time 2016 7 17 2 0 0));
     articles := [ ArticlesRow "a" "Foo" 1 ];
     authors := [ AuthorsRow 1 "Ann" ] |}.

Definition news_world (db : database) (vs : list view) : world :=
  World "news" db vs [] [].

(** A server that hosts another database than the one the script names. *)
Definition other_world : world := World "forum" one_day_db [] [] [].

(** The world after one more connection has been made. *)
Definition opened (w : world) : world :=
  set_connections (connections w ++ [ConnectionState false Idle]) w.

(** What Python reports when [execute] is asked of a method object. *)
Definition no_execute : exception :=
  AttributeError "builtin_function_or_method" "execute".

(** * Properties *)

(** ** Orders *)

Lemma timestamp_key_inj a b : timestamp_key a = timestamp_key b → a = b.
Proof. destruct a, b; unfold timestamp_key; simpl; congruence. Qed.

Global Instance timestamp_le_total : Total timestamp_le.
Proof.
  intros a b. unfold timestamp_le, timestamp_lt.
  destruct (trichotomy lexico (timestamp_key a) (timestamp_key b))
    as [H | [H | H]]; auto using timestamp_key_inj.
Qed.

Global Instance timestamp_le_trans : Transitive timestamp_le.
Proof.
  intros a b c [-> | Hab] [-> | Hbc]; unfold timestamp_le; auto.
  right. unfold timestamp_lt in *. by etrans.
Qed.

Global Instance timestamp_le_refl : Reflexive timestamp_le.
Proof. by left. Qed.

Section order_by.
Context {A : Type}.

Global Instance desc_by_total (key : A → nat) : Total (desc_by key).
Proof. intros a b. unfold desc_by. lia. Qed.
Global Instance desc_by_trans (key : A → nat) : Transitive (desc_by key).
Proof. intros a b c. unfold desc_by. lia. Qed.

Global Instance asc_by_date_total (key : A → timestamp) : Total (asc_by_date key).
Proof. intros a b. unfold asc_by_date. apply total, _. Qed.
Global Instance asc_by_date_trans (key : A → timestamp) :
  Transitive (asc_by_date key).
Proof. intros a b c. unfold asc_by_date. apply transitivity. Qed.

Lemma order_by_desc_sorted (key : A → nat) l :
  StronglySorted (desc_by key) (order_by_desc key l).
Proof. apply StronglySorted_merge_sort; apply _. Qed.
Lemma order_by_desc_perm (key : A → nat) l : order_by_desc key l ≡ₚ l.
Proof. apply merge_sort_Permutation. Qed.

Lemma order_by_date_sorted (key : A → timestamp) l :
  StronglySorted (asc_by_date key) (order_by_date key l).
Proof. apply StronglySorted_merge_sort; apply _. Qed.
Lemma order_by_date_perm (key : A → timestamp) l : order_by_date key l ≡ₚ l.
Proof. apply merge_sort_Permutation. Qed.

Lemma elem_of_order_by_desc (key : A → nat) l x :
  x ∈ order_by_desc key l ↔ x ∈ l.
Proof. by rewrite order_by_desc_perm. Qed.
Lemma elem_of_order_by_date (key : A → timestamp) l x :
  x ∈ order_by_date key l ↔ x ∈ l.
Proof. by rewrite order_by_date_perm. Qed.
End order_by.

(** ** Grouping *)

Section group_by.
Context {A K : Type} `{EqDecision K} (key : A → K).

Lemma group_by_keys rows :
  (group_by key rows).*1 = remove_dups (key <$> rows).
Proof.
  unfold group_by. generalize (remove_dups (key <$> rows)).
  intros ks. induction ks as [|k ks IH]; csimpl; by f_equal.
Qed.

Lemma group_by_NoDup rows : NoDup (group_by key rows).*1.
Proof. rewrite group_by_keys. apply NoDup_remove_dups. Qed.

Lemma elem_of_group_by rows k g :
  (k, g) ∈ group_by key rows ↔
    k ∈ key <$> rows ∧ g = filter (λ r, key r = k) rows.
Proof.
  unfold group_by. rewrite list_elem_of_fmap. split.
  - intros (k' & [= -> ->] & Hk). by rewrite elem_of_remove_dups in Hk.
  - intros [Hk ->]. exists k. by rewrite elem_of_remove_dups.
Qed.

Lemma group_by_group_nonempty rows k g :
  (k, g) ∈ group_by key rows → g ≠ [].
Proof.
  rewrite elem_of_group_by. intros [Hk ->] Hnil.
  apply list_elem_of_fmap in Hk as (r & -> & Hr).
  assert (r ∈ filter (λ r0, key r0 = key r) rows) as Hin
    by (by apply list_elem_of_filter).
  rewrite Hnil in Hin. inv Hin.
Qed.
End group_by.

(** ** The views and the queries: sortedness and contents *)

Lemma StronglySorted_take {A} (R : relation A) n l :
  StronglySorted R l → StronglySorted R (take n l).
Proof.
  intros H. rewrite <-(take_drop n l) in H.
  by apply StronglySorted_app_1_l in H.
Qed.

Lemma most_viewed_articles_sorted db :
  StronglySorted (desc_by mva_pv) (most_viewed_articles db).
Proof. apply order_by_desc_sorted. Qed.

Lemma elem_of_daily_error_rates db row :
  row ∈ daily_error_rates db ↔
    der_date row ∈ (λ r, date_trunc_day (log_time r)) <$> log db ∧
    der_error_rate row = error_rate (rows_of_day (der_date row) (log db)).
Proof.
  unfold daily_error_rates. rewrite elem_of_order_by_date, list_elem_of_fmap.
  split.
  - intros ([d g] & -> & Hg). by apply elem_of_group_by in Hg as [? ->].
  - intros [Hd Hr]. exists (der_date row, rows_of_day (der_date row) (log db)).
    split; [destruct row; simpl in *; by subst|].
    by apply elem_of_group_by.
Qed.

Lemma daily_error_rates_dates db :
  der_date <$> daily_error_rates db ≡ₚ
    remove_dups ((λ r, date_trunc_day (log_time r)) <$> log db).
Proof.
  unfold daily_error_rates. rewrite order_by_date_perm, <-group_by_keys.
  rewrite <-list_fmap_compose.
  by erewrite list_fmap_ext; [reflexivity|].
Qed.

Lemma daily_error_rates_NoDup db : NoDup (der_date <$> daily_error_rates db).
Proof. rewrite daily_error_rates_dates. apply NoDup_remove_dups. Qed.

Lemma rows_of_day_nonempty d l :
  d ∈ (λ r, date_trunc_day (log_time r)) <$> l ↔ rows_of_day d l ≠ [].
Proof.
  unfold rows_of_day. rewrite list_elem_of_fmap. split.
  - intros (r & -> & Hr) Hnil.
    assert (r ∈ filter (λ r0, date_trunc_day (log_time r0)
                              = date_trunc_day (log_time r)) l) as Hin
      by (by apply list_elem_of_filter).
    rewrite Hnil in Hin. inv Hin.
  - intros Hne. destruct (filter _ l) as [|r g] eqn:E; [done|].
    assert (r ∈ filter (λ r0, date_trunc_day (log_time r0) = d) l) as Hin
      by (rewrite E; left).
    apply list_elem_of_filter in Hin as [Hd Hr]. eauto.
Qed.

Lemma count_not_found_le g : count_not_found g ≤ count_star g.
Proof. apply length_filter. Qed.

Lemma error_rate_bounds g : g ≠ [] → (0 <= error_rate g <= 100)%Q.
Proof.
  intros Hg. unfold error_rate.
  pose proof (count_not_found_le g) as Hle.
  assert (0 < count_star g) as Hpos by (destruct g; simpl; [done|lia]).
  assert (0 < inject_Z (Z.of_nat (count_star g)))%Q as HposQ.
  { change 0%Q with (inject_Z 0). rewrite <-Zlt_Qlt. lia. }
  split.
  - apply Qle_shift_div_l; [done|]. rewrite Qmult_0_l.
    change 0%Q with (inject_Z 0). change 100%Q with (inject_Z 100).
    rewrite <-inject_Z_mult, <-Zle_Qle. lia.
  - apply Qle_shift_div_r; [done|].
    change 100%Q with (inject_Z 100).
    rewrite <-!inject_Z_mult, <-Zle_Qle. lia.
Qed.

Lemma StronglySorted_strict {A} (key : A → timestamp) l :
  StronglySorted (asc_by_date key) l → NoDup (key <$> l) →
  StronglySorted (λ a b, timestamp_lt (key a) (key b)) l.
Proof.
  induction 1 as [|x l Hl IH Hx]; csimpl; intros Hnd; [constructor|].
  apply NoDup_cons in Hnd as [Hnotin Hnd]. constructor; [by apply IH|].
  apply Forall_forall. intros y Hy.
  rewrite Forall_forall in Hx. destruct (Hx y Hy) as [Heq|]; [|done].
  destruct Hnotin. rewrite Heq. by apply list_elem_of_fmap_2.
Qed.

(** C1, as the code has it: the query returns at most three rows, in
    non-increasing order of their view count; rows with equal counts may
    follow each other. *)
Theorem top_articles_at_most_three_sorted (db : database) :
  let rows := stmt_rows query_select_three_most_viewed_articles db in
  length rows ≤ 3 ∧ StronglySorted (λ a b, (b.2 ≤ a.2)%Z) rows.
Proof.
  simpl. unfold select_three_most_viewed_articles_rows. split.
  - rewrite length_take. lia.
  - apply StronglySorted_take.
    eapply StronglySorted_fmap, most_viewed_articles_sorted.
    intros a b. unfold desc_by. simpl. lia.
Qed.

(** C1 as stated fails: two articles requested once each give two rows
    with the same view count, which are not in strictly decreasing order. *)
Lemma top_articles_not_strictly_sorted :
  ¬ (let rows := stmt_rows query_select_three_most_viewed_articles tie_db in
     length rows ≤ 3 ∧ Sorted (λ a b, (b.2 < a.2)%Z) rows).
Proof.
  intros [_ H]. vm_compute in H.
  inversion H as [|? ? _ Hhd]; subst. inversion Hhd as [|? ? Hlt]; subst.
  vm_compute in Hlt. discriminate.
Qed.

(** C4: the query returns exactly the rows of [daily_error_rates] whose
    error rate is above 1.0, each once, in increasing order of date. *)
Theorem high_error_days_exactly_above_one_sorted (db : database) :
  let rows := stmt_rows query_select_daily_error_rate_more_than_one_percent db in
  rows ≡ₚ (λ r, (der_date r, der_error_rate r))
            <$> filter (λ r, (1 < der_error_rate r)%Q) (daily_error_rates db) ∧
  (∀ row, row ∈ rows ↔
     (1 < row.2)%Q ∧ DailyErrorRatesRow row.1 row.2 ∈ daily_error_rates db) ∧
  StronglySorted (λ a b, timestamp_le a.1 b.1) rows ∧
  StronglySorted (λ a b, timestamp_lt a.1 b.1) rows.
Proof.
  simpl. unfold select_daily_error_rate_more_than_one_percent_rows.
  set (kept := filter (λ r, (1 < der_error_rate r)%Q) (daily_error_rates db)).
  assert (StronglySorted (λ a b, timestamp_lt (der_date a) (der_date b))
            (order_by_date der_date kept)) as Hstrict.
  { apply StronglySorted_strict; [apply order_by_date_sorted|].
    rewrite order_by_date_perm. unfold kept.
    eapply sublist_NoDup; [apply (daily_error_rates_NoDup db)|].
    apply fmap_sublist, sublist_filter. }
  split_and!.
  - by rewrite order_by_date_perm.
  - intros [d x]. rewrite list_elem_of_fmap. simpl. split.
    + intros ([d' x'] & [= -> ->] & Hin).
      apply elem_of_order_by_date, list_elem_of_filter in Hin. done.
    + intros [Hx Hin]. eexists. split; [|apply elem_of_order_by_date,
        list_elem_of_filter; split; [|exact Hin]; done]. done.
  - eapply StronglySorted_fmap, order_by_date_sorted. by intros a b.
  - eapply StronglySorted_fmap, Hstrict. by intros a b.
Qed.

Lemma two_status_day_length (day : list log_row) :
  Forall (λ r, log_status r = "200 OK" ∨ log_status r = "404 NOT FOUND") day →
  length day =
    length (filter (λ r, log_status r = "200 OK") day)
    + length (filter (λ r, log_status r = "404 NOT FOUND") day).
Proof.
  induction 1 as [|r day [Hr|Hr] _ IH]; [done|..];
    rewrite !filter_cons; repeat case_decide; simpl; try lia; congruence.
Qed.

Lemma date_trunc_day_calendar t d :
  date_trunc_day t = d ↔ on_calendar_day d t ∧ midnight d.
Proof.
  unfold date_trunc_day, on_calendar_day, midnight. destruct d, t. simpl.
  split; [intros [= <- <- <- <- <- <- <-]; done|].
  intros [(-> & -> & ->) (-> & -> & -> & ->)]. done.
Qed.

Lemma rows_of_day_calendar d l :
  midnight d →
  rows_of_day d l = filter (λ r, on_calendar_day d (log_time r)) l.
Proof.
  intros Hd. unfold rows_of_day. apply list_filter_iff. intros r.
  rewrite date_trunc_day_calendar. tauto.
Qed.

(** C2: [daily_error_rates] has one row per calendar day that occurs in
    [log]: its date is a midnight, it stands for the log rows whose
    timestamp has the year, month and day of that date, and there is a row
    for every day on which there is a log row.  The error rate of a day
    is 100 times the number of its rows with status ['404 NOT FOUND'],
    divided by the number of all its rows.  For a day made of five
    ['200 OK'] rows and one ['404 NOT FOUND'] row the rate is 100/6, which
    one decimal renders as 16.7. *)
Theorem daily_error_rates_per_day (db : database) (d : timestamp) :
  let requests := filter (λ r, on_calendar_day d (log_time r)) (log db) in
  NoDup (der_date <$> daily_error_rates db) ∧
  (d ∈ der_date <$> daily_error_rates db ↔ midnight d ∧ requests ≠ []) ∧
  (∀ row, row ∈ daily_error_rates db → der_date row = d →
     midnight d ∧ 0 < length requests ∧
     (der_error_rate row ==
        100 * inject_Z (Z.of_nat
                (length (filter (λ r, log_status r = "404 NOT FOUND") requests)))
            / inject_Z (Z.of_nat (length requests)))%Q ∧
     (0 <= der_error_rate row <= 100)%Q) ∧
  (midnight d →
   Forall (λ r, log_status r = "200 OK" ∨ log_status r = "404 NOT FOUND")
     requests →
   length (filter (λ r, log_status r = "200 OK") requests) = 5 →
   length (filter (λ r, log_status r = "404 NOT FOUND") requests) = 1 →
   ∃ row, row ∈ daily_error_rates db ∧ der_date row = d ∧
          (der_error_rate row == 100 * 1 / 6)%Q ∧
          str_Decimal1 (round1 (der_error_rate row)) = "16.7").
Proof.
  intros requests.
  assert (d ∈ der_date <$> daily_error_rates db → midnight d) as Hmid.
  { intros (row & -> & Hrow)%list_elem_of_fmap.
    apply elem_of_daily_error_rates in Hrow as [Hd _].
    apply list_elem_of_fmap in Hd as (r & Hr & _).
    symmetry in Hr. by apply date_trunc_day_calendar in Hr as [_ ?]. }
  assert (midnight d → rows_of_day d (log db) = requests) as Hday
    by apply rows_of_day_calendar.
  split; [|split; [|split]].
  - apply daily_error_rates_NoDup.
  - split.
    + intros Hin. pose proof (Hmid Hin) as Hd. split; [done|].
      rewrite <-(Hday Hd). apply rows_of_day_nonempty.
      apply list_elem_of_fmap in Hin as (row & -> & Hrow).
      by apply elem_of_daily_error_rates in Hrow as [? _].
    + intros [Hd Hne]. rewrite <-(Hday Hd) in Hne.
      apply rows_of_day_nonempty in Hne. apply list_elem_of_fmap.
      exists (DailyErrorRatesRow d (error_rate (rows_of_day d (log db)))).
      split; [done|]. by apply elem_of_daily_error_rates.
  - intros row Hrow Hdate.
    assert (midnight d) as Hd
      by (apply Hmid; rewrite <-Hdate; by apply list_elem_of_fmap_2).
    apply elem_of_daily_error_rates in Hrow as [Hin Hrate].
    rewrite Hdate in Hin, Hrate. rewrite (Hday Hd) in Hrate.
    apply rows_of_day_nonempty in Hin. rewrite (Hday Hd) in Hin.
    split; [done|split; [|split]].
    + destruct requests; simpl; [done|lia].
    + by rewrite Hrate.
    + rewrite Hrate. by apply error_rate_bounds.
  - intros Hd Hall H200 H404.
    pose proof (two_status_day_length requests Hall) as Hlen.
    rewrite H200, H404 in Hlen.
    exists (DailyErrorRatesRow d (error_rate requests)).
    assert (error_rate requests = (100 * inject_Z 1 / inject_Z 6)%Q) as ->.
    { unfold error_rate, count_not_found, count_star. by rewrite H404, Hlen. }
    split_and!; [|done..].
    apply elem_of_daily_error_rates. simpl. rewrite (Hday Hd). split.
    + apply rows_of_day_nonempty. rewrite (Hday Hd). by destruct requests.
    + unfold error_rate, count_not_found, count_star.
      by rewrite H404, Hlen.
Qed.

Lemma daily_error_rates_per_day_witness :
  ∃ row, row ∈ daily_error_rates one_day_db ∧
         der_date row = at_time 2016 7 17 0 0 0 ∧
         (der_error_rate row == 100 * 1 / 6)%Q ∧
         str_Decimal1 (round1 (der_error_rate row)) = "16.7".
Proof.
  apply (daily_error_rates_per_day one_day_db (at_time 2016 7 17 0 0 0)).
  - vm_compute. done.
  - apply (bool_decide_unpack _). vm_compute. reflexivity.
  - vm_compute. reflexivity.
  - vm_compute. reflexivity.
Defined.

(** Comparing two error rates is comparing cross products of counts. *)
Lemma error_rate_as_fraction g :
  g ≠ [] →
  error_rate g =
    (100 * Z.of_nat (count_not_found g) * 1 # 1 * Pos.of_nat (count_star g))%Q.
Proof.
  intros Hg. unfold error_rate, count_star.
  destruct g as [|r g]; [done|]. simpl length.
  unfold Qdiv, Qmult, Qinv, inject_Z. simpl Qnum. simpl Qden.
  f_equal. rewrite <-Pos.of_nat_succ. lia.
Qed.

Lemma error_rate_lt g1 g2 :
  g1 ≠ [] → g2 ≠ [] →
  count_not_found g1 * count_star g2 < count_not_found g2 * count_star g1 →
  (error_rate g1 < error_rate g2)%Q.
Proof.
  intros H1 H2 Hlt. rewrite !error_rate_as_fraction by done.
  assert (0 < count_star g1) by (destruct g1; simpl; [done|lia]).
  assert (0 < count_star g2) by (destruct g2; simpl; [done|lia]).
  unfold Qlt. simpl. rewrite !Pos2Z.inj_mul, !Z.mul_1_l, !Z.mul_1_r.
  rewrite <-!positive_nat_Z, !Nat2Pos.id by lia. nia.
Qed.

Lemma error_rate_le g1 g2 :
  g1 ≠ [] → g2 ≠ [] →
  count_not_found g1 * count_star g2 ≤ count_not_found g2 * count_star g1 →
  (error_rate g1 <= error_rate g2)%Q.
Proof.
  intros H1 H2 Hlt. rewrite !error_rate_as_fraction by done.
  assert (0 < count_star g1) by (destruct g1; simpl; [done|lia]).
  assert (0 < count_star g2) by (destruct g2; simpl; [done|lia]).
  unfold Qle. simpl. rewrite !Pos2Z.inj_mul, !Z.mul_1_l, !Z.mul_1_r.
  rewrite <-!positive_nat_Z, !Nat2Pos.id by lia. nia.
Qed.

Lemma error_rate_pos g :
  g ≠ [] → (0 < error_rate g)%Q → 0 < count_not_found g.
Proof.
  intros Hg. rewrite error_rate_as_fraction by done.
  unfold Qlt. simpl. lia.
Qed.

Lemma rows_of_day_insert d l1 r l2 :
  date_trunc_day (log_time r) = d →
  rows_of_day d (l1 ++ r :: l2) = rows_of_day d l1 ++ r :: rows_of_day d l2.
Proof.
  intros Hd. unfold rows_of_day. by rewrite filter_app, filter_cons_True.
Qed.

Lemma rows_of_day_app d l1 l2 :
  rows_of_day d (l1 ++ l2) = rows_of_day d l1 ++ rows_of_day d l2.
Proof. apply filter_app. Qed.

Lemma count_not_found_app g1 g2 :
  count_not_found (g1 ++ g2) = count_not_found g1 + count_not_found g2.
Proof. unfold count_not_found. by rewrite filter_app, length_app. Qed.

Lemma count_not_found_cons r g :
  count_not_found (r :: g) =
    (if decide (log_status r = "404 NOT FOUND") then 1 else 0)
    + count_not_found g.
Proof. unfold count_not_found. rewrite filter_cons. by case_decide. Qed.

(** C10: a row counts in the numerator of its day's error rate exactly
    when its status is ['404 NOT FOUND'], and every row counts in the
    denominator.  So a row [r] with any other status leaves the numerator
    of its day as it is without [r] and adds one to the denominator: the
    day's rate is below what it would be had [r] been counted as an error,
    and it is not above the rate of the day without [r] (below it, as soon
    as that rate is not zero). *)
Theorem other_status_is_not_an_error
    (l1 l2 : list log_row) (r : log_row)
    (arts : list articles_row) (auths : list authors_row) :
  log_status r ≠ "404 NOT FOUND" →
  let d := date_trunc_day (log_time r) in
  let as_error := LogRow (log_path r) "404 NOT FOUND" (log_time r) in
  let db := Database (l1 ++ r :: l2) arts auths in
  let db_without := Database (l1 ++ l2) arts auths in
  let db_as_error := Database (l1 ++ as_error :: l2) arts auths in
  count_not_found (rows_of_day d (log db))
    = count_not_found (rows_of_day d (log db_without)) ∧
  count_star (rows_of_day d (log db))
    = S (count_star (rows_of_day d (log db_without))) ∧
  count_not_found (rows_of_day d (log db_as_error))
    = S (count_not_found (rows_of_day d (log db_without))) ∧
  ∃ row, row ∈ daily_error_rates db ∧ der_date row = d ∧
    (der_error_rate row ==
       100 * inject_Z (Z.of_nat (count_not_found (rows_of_day d (log db_without))))
           / inject_Z (Z.of_nat (S (count_star (rows_of_day d (log db_without))))))%Q ∧
    (∀ row', row' ∈ daily_error_rates db_as_error → der_date row' = d →
       (der_error_rate row < der_error_rate row')%Q) ∧
    (∀ row0, row0 ∈ daily_error_rates db_without → der_date row0 = d →
       (der_error_rate row <= der_error_rate row0)%Q ∧
       ((0 < der_error_rate row0)%Q →
        (der_error_rate row < der_error_rate row0)%Q)).
Proof.
  intros Hstatus d as_error db db_without db_as_error. simpl log.
  assert (rows_of_day d (l1 ++ r :: l2)
          = rows_of_day d l1 ++ r :: rows_of_day d l2) as Hwith
    by (by apply rows_of_day_insert).
  assert (rows_of_day d (l1 ++ as_error :: l2)
          = rows_of_day d l1 ++ as_error :: rows_of_day d l2) as Herr
    by (by apply rows_of_day_insert).
  assert (count_not_found (rows_of_day d (l1 ++ r :: l2))
          = count_not_found (rows_of_day d (l1 ++ l2))) as Hnum.
  { rewrite Hwith, rows_of_day_app, !count_not_found_app, count_not_found_cons.
    by rewrite decide_False. }
  assert (count_star (rows_of_day d (l1 ++ r :: l2))
          = S (count_star (rows_of_day d (l1 ++ l2)))) as Hden.
  { rewrite Hwith, rows_of_day_app. unfold count_star.
    rewrite !length_app. simpl. lia. }
  assert (count_not_found (rows_of_day d (l1 ++ as_error :: l2))
          = S (count_not_found (rows_of_day d (l1 ++ l2)))) as Hnum'.
  { rewrite Herr, rows_of_day_app, !count_not_found_app, count_not_found_cons.
    rewrite decide_True by done. lia. }
  assert (count_star (rows_of_day d (l1 ++ as_error :: l2))
          = S (count_star (rows_of_day d (l1 ++ l2)))) as Hden'.
  { rewrite Herr, rows_of_day_app. unfold count_star.
    rewrite !length_app. simpl. lia. }
  assert (rows_of_day d (l1 ++ r :: l2) ≠ []) as Hne
    by (rewrite Hwith; by destruct (rows_of_day d l1)).
  assert (rows_of_day d (l1 ++ as_error :: l2) ≠ []) as Hne'
    by (rewrite Herr; by destruct (rows_of_day d l1)).
  split_and!; [done..|].
  exists (DailyErrorRatesRow d (error_rate (rows_of_day d (l1 ++ r :: l2)))).
  simpl. split_and!.
  - apply elem_of_daily_error_rates. split; [|done].
    by apply rows_of_day_nonempty.
  - done.
  - unfold error_rate at 1. by rewrite Hnum, Hden.
  - intros row' Hrow' Hd'.
    apply elem_of_daily_error_rates in Hrow' as [_ ->]. rewrite Hd'. simpl.
    apply error_rate_lt; [done..|]. rewrite Hnum, Hnum', Hden, Hden'. lia.
  - intros row0 Hrow0 Hd0.
    apply elem_of_daily_error_rates in Hrow0 as [Hin ->].
    rewrite Hd0 in *. simpl in *.
    apply rows_of_day_nonempty in Hin.
    pose proof (count_not_found_le (rows_of_day d (l1 ++ l2))).
    split.
    + apply error_rate_le; [done..|]. rewrite Hnum, Hden. lia.
    + intros Hpos%error_rate_pos; [|done].
      apply error_rate_lt; [done..|]. rewrite Hnum, Hden. lia.
Qed.

Lemma other_status_is_not_an_error_witness :
  let r := LogRow "/article/a" "500 INTERNAL SERVER ERROR"
             (at_time 2016 7 17 7 0 0) in
  count_not_found
    (rows_of_day (at_time 2016 7 17 0 0 0) (log one_day_db ++ [r])) = 1 ∧
  count_star
    (rows_of_day (at_time 2016 7 17 0 0 0) (log one_day_db ++ [r])) = 7.
Proof.
  intros r.
  destruct (other_status_is_not_an_error (log one_day_db) [] r
              (articles one_day_db) (authors one_day_db)) as (Hn & Hd & _).
  - vm_compute. discriminate.
  - split.
    + etrans; [exact Hn|]. vm_compute. reflexivity.
    + etrans; [exact Hd|]. vm_compute. reflexivity.
Defined.

(** ** The authors report *)

Section authors_join.
Context (mva : list most_viewed_articles_row).

Lemma articles_of_sum a :
  sum_list (snd <$> articles_of mva a) =
    sum_list (mva_pv <$> filter (λ m, mva_author_id m = authors_id a) mva).
Proof.
  unfold articles_of. induction mva as [|m l IH]; [done|].
  rewrite bind_cons, fmap_app, sum_list_with_app, IH, filter_cons.
  repeat case_decide; csimpl; unfold id; congruence || lia.
Qed.

Lemma articles_of_name a name :
  filter (λ p : string * nat, p.1 = name) (articles_of mva a) =
    if decide (authors_name a = name) then articles_of mva a else [].
Proof.
  unfold articles_of. induction mva as [|m l IH].
  { by case_decide. }
  rewrite bind_cons, filter_app, IH.
  destruct (decide (authors_id a = mva_author_id m));
    destruct (decide (authors_name a = name)); simpl; try done.
  - by rewrite filter_cons_True.
  - by rewrite filter_cons_False.
Qed.

Lemma join_sum_by_name (auths : list authors_row) name :
  sum_list (snd <$> filter (λ p : string * nat, p.1 = name)
                      (auths ≫= articles_of mva)) =
    sum_list ((λ a, sum_list (mva_pv <$>
                 filter (λ m, mva_author_id m = authors_id a) mva))
              <$> filter (λ a, authors_name a = name) auths).
Proof.
  induction auths as [|a l IH]; [done|].
  rewrite bind_cons, filter_app, fmap_app, sum_list_with_app, IH.
  rewrite articles_of_name, filter_cons.
  case_decide; csimpl; [|done]. by rewrite articles_of_sum.
Qed.
End authors_join.

Lemma authors_join_sum_by_name db name :
  sum_list (snd <$> filter (λ p : string * nat, p.1 = name) (authors_join db)) =
    sum_list (author_views db <$> filter (λ a, authors_name a = name) (authors db)).
Proof. apply join_sum_by_name. Qed.

Lemma elem_of_authors_join db name pv :
  (name, pv) ∈ authors_join db ↔
    ∃ a m, a ∈ authors db ∧ m ∈ most_viewed_articles db ∧
           authors_id a = mva_author_id m ∧
           authors_name a = name ∧ mva_pv m = pv.
Proof.
  unfold authors_join, articles_of. rewrite list_elem_of_bind. split.
  - intros (a & Hin & Ha). apply list_elem_of_bind in Hin as (m & Hin & Hm).
    case_decide; [|inv Hin]. apply list_elem_of_singleton in Hin as [= -> ->].
    eauto 10.
  - intros (a & m & Ha & Hm & Hid & <- & <-). exists a. split; [|done].
    apply list_elem_of_bind. exists m. split; [|done].
    rewrite decide_True by done. left.
Qed.

Lemma elem_of_select_most_viewed_authors_rows db name total :
  (name, total) ∈ select_most_viewed_authors_rows db ↔
    name ∈ (authors_join db).*1 ∧
    total = Z.of_nat (sum_list (snd <$> filter (λ p : string * nat, p.1 = name)
                                          (authors_join db))).
Proof.
  unfold select_most_viewed_authors_rows. rewrite list_elem_of_fmap. split.
  - intros ([n t] & [= -> ->] & Hin). simpl.
    apply elem_of_order_by_desc, list_elem_of_fmap in Hin
      as ([k g] & [= -> ->] & Hg).
    by apply elem_of_group_by in Hg as [? ->].
  - intros [Hname ->]. eexists (name, _). split; [reflexivity|].
    apply elem_of_order_by_desc, list_elem_of_fmap.
    eexists (name, _). split; [reflexivity|]. by apply elem_of_group_by.
Qed.

Lemma select_most_viewed_authors_rows_names db :
  (select_most_viewed_authors_rows db).*1 ≡ₚ remove_dups (authors_join db).*1.
Proof.
  unfold select_most_viewed_authors_rows.
  rewrite <-list_fmap_compose.
  erewrite (list_fmap_ext _ fst); [|by intros ? []].
  rewrite order_by_desc_perm, <-list_fmap_compose.
  erewrite (list_fmap_ext _ fst); [|by intros ? []].
  by rewrite group_by_keys.
Qed.

(** C5, as the code has it: the query groups by author name.  Each name
    occurs once; the names are those of the authors with a row in
    [most_viewed_articles] (no limit cuts the list); the total of a name is
    the sum of the views of every author of that name, which is the views
    of one author when no other author bears the name; the rows are in
    non-increasing order of total. *)
Theorem top_authors_totals_by_name (db : database) :
  let rows := stmt_rows query_select_most_viewed_authors db in
  NoDup rows.*1 ∧
  (∀ name, name ∈ rows.*1 ↔
     ∃ a m, a ∈ authors db ∧ m ∈ most_viewed_articles db ∧
            mva_author_id m = authors_id a ∧ authors_name a = name) ∧
  (∀ name total, (name, total) ∈ rows →
     total = Z.of_nat (sum_list (author_views db
               <$> filter (λ a, authors_name a = name) (authors db)))) ∧
  (∀ a total,
     filter (λ a', authors_name a' = authors_name a) (authors db) = [a] →
     (authors_name a, total) ∈ rows →
     total = Z.of_nat (author_views db a)) ∧
  StronglySorted (λ x y, (y.2 ≤ x.2)%Z) rows.
Proof.
  simpl.
  assert (∀ name total, (name, total) ∈ select_most_viewed_authors_rows db →
     total = Z.of_nat (sum_list (author_views db
               <$> filter (λ a, authors_name a = name) (authors db)))) as Htotal.
  { intros name total [_ ->]%elem_of_select_most_viewed_authors_rows.
    by rewrite authors_join_sum_by_name. }
  split_and!.
  - rewrite select_most_viewed_authors_rows_names. apply NoDup_remove_dups.
  - intros name. rewrite select_most_viewed_authors_rows_names.
    rewrite elem_of_remove_dups, list_elem_of_fmap. split.
    + intros ([n pv] & -> & Hin). simpl.
      apply elem_of_authors_join in Hin as (a & m & ? & ? & ? & ? & ?).
      eauto 10.
    + intros (a & m & Ha & Hm & Hid & <-). exists (authors_name a, mva_pv m).
      split; [done|]. apply elem_of_authors_join. eauto 10.
  - done.
  - intros a total Hone Hin. apply Htotal in Hin as ->.
    rewrite Hone. csimpl. unfold id. f_equal. lia.
  - unfold select_most_viewed_authors_rows.
    eapply StronglySorted_fmap, order_by_desc_sorted.
    intros x y. unfold desc_by. simpl. lia.
Qed.

Lemma top_authors_totals_by_name_witness :
  (∀ name total,
     (name, total) ∈ stmt_rows query_select_most_viewed_authors tie_db →
     total = Z.of_nat (sum_list (author_views tie_db
               <$> filter (λ a, authors_name a = name) (authors tie_db)))) ∧
  1%Z = Z.of_nat (author_views tie_db (AuthorsRow 1 "Ann")).
Proof.
  destruct (top_authors_totals_by_name tie_db) as (_ & _ & Hname & Hone & _).
  split; [exact Hname|].
  apply (Hone (AuthorsRow 1 "Ann") 1%Z).
  - vm_compute. reflexivity.
  - apply (bool_decide_unpack _). vm_compute. reflexivity.
Defined.

(** C5 as stated fails: with two authors of the same name, the total
    reported under that name is not the sum over one author's articles. *)
Lemma top_authors_total_merges_namesakes :
  ¬ (∀ a total,
       a ∈ authors namesake_db →
       (authors_name a, total) ∈ stmt_rows query_select_most_viewed_authors
                                   namesake_db →
       total = Z.of_nat (author_views namesake_db a)).
Proof.
  intros H. specialize (H (AuthorsRow 1 "Ann") 3%Z).
  assert (3%Z = Z.of_nat (author_views namesake_db (AuthorsRow 1 "Ann"))) as E.
  { apply H; apply (bool_decide_unpack _); vm_compute; reflexivity. }
  vm_compute in E. discriminate.
Qed.

(** ** The driver code *)

Lemma connect_eq db_name w :
  connect db_name w =
    if decide (db_name = server_database w)
    then (opened w,
          Returned (Connection (length (connections w)),
                    Method (Connection (length (connections w))) "cursor"))
    else (w, Raised OperationalError).
Proof.
  unfold connect, try_except, mbind, Py_bind, psycopg2_connect.
  by case_decide.
Qed.

Lemma execute_on_method {R} (q : statement R) self name w :
  execute (Method self name) q w = (w, Raised no_execute).
Proof. done. Qed.

Lemma initialize_views_eq w :
  initialize_views w =
    if decide ("news" = server_database w)
    then (opened w, Raised no_execute)
    else (w, Raised OperationalError).
Proof.
  unfold initialize_views, mbind, Py_bind. rewrite connect_eq.
  by case_decide.
Qed.

Lemma select_three_most_viewed_articles_eq w :
  select_three_most_viewed_articles w =
    if decide ("news" = server_database w)
    then (opened w, Raised no_execute)
    else (w, Raised OperationalError).
Proof.
  unfold select_three_most_viewed_articles, mbind, Py_bind.
  rewrite connect_eq. by case_decide.
Qed.

Lemma select_most_viewed_authors_eq w :
  select_most_viewed_authors w =
    if decide ("news" = server_database w)
    then (opened w, Raised no_execute)
    else (w, Raised OperationalError).
Proof.
  unfold select_most_viewed_authors, mbind, Py_bind.
  rewrite connect_eq. by case_decide.
Qed.

Lemma select_daily_error_rate_more_than_one_percent_eq w :
  select_daily_error_rate_more_than_one_percent w =
    if decide ("news" = server_database w)
    then (opened w, Raised no_execute)
    else (w, Raised OperationalError).
Proof.
  unfold select_daily_error_rate_more_than_one_percent, mbind, Py_bind.
  rewrite connect_eq. by case_decide.
Qed.

(** No statement changes the committed views: only [commit] does. *)
Lemma execute_views {R} (q : statement R) cursor w :
  views (execute cursor q w).1 = views w.
Proof.
  destruct cursor as [n|n|self name]; try done.
  unfold execute, getattr, mbind, Py_bind, server_execute, with_connection.
  simpl. destruct (connections w !! n) as [[[] t]|]; try done.
  destruct t; simpl; try done; by case_decide.
Qed.

Lemma close_views conn w : views (close conn w).1 = views w.
Proof.
  destruct conn as [n|n|self name]; try done.
  unfold close, getattr, mbind, Py_bind, server_close. simpl.
  by destruct (connections w !! n).
Qed.

(** C9: [connect] hands back the connection together with its [cursor]
    attribute, a method object that was never called (or raises the
    driver's error when the connection cannot be made).  Each operation of
    the script then asks [execute] of that method object, which has no such
    attribute. *)
Theorem connect_returns_the_cursor_method (db_name : string) (w : world) :
  let conn := Connection (length (connections w)) in
  let cursor := Method conn "cursor" in
  connect db_name w =
    (if decide (db_name = server_database w)
     then (opened w, Returned (conn, cursor))
     else (w, Raised OperationalError)) ∧
  (∀ R (q : statement R) w', execute cursor q w' = (w', Raised no_execute)) ∧
  (server_database w = "news" →
   initialize_views w =
     (execute cursor query_initialize_view_most_viewed_paths;;
      execute cursor query_initialize_view_most_viewed_articles;;
      execute cursor query_initialize_view_daily_error_rates;;
      commit conn;;
      close conn) (opened w) ∧
   select_three_most_viewed_articles w =
     (held ← execute cursor query_select_three_most_viewed_articles;
      result ← fetchall cursor held;
      close conn;;
      mret result) (opened w) ∧
   select_most_viewed_authors w =
     (held ← execute cursor query_select_most_viewed_authors;
      result ← fetchall cursor held;
      close conn;;
      mret result) (opened w) ∧
   select_daily_error_rate_more_than_one_percent w =
     (held ← execute cursor query_select_daily_error_rate_more_than_one_percent;
      result ← fetchall cursor held;
      close conn;;
      mret result) (opened w)).
Proof.
  intros conn cursor. split_and!.
  - apply connect_eq.
  - done.
  - intros Hnews.
    unfold initialize_views, select_three_most_viewed_articles,
      select_most_viewed_authors, select_daily_error_rate_more_than_one_percent,
      mbind, Py_bind.
    rewrite connect_eq, decide_True by done. done.
Qed.

Lemma connect_returns_the_cursor_method_witness :
  select_three_most_viewed_articles (news_world one_day_db []) =
    (opened (news_world one_day_db []), Raised no_execute).
Proof.
  destruct (connect_returns_the_cursor_method "news" (news_world one_day_db []))
    as (_ & _ & H).
  destruct H as (_ & -> & _); reflexivity.
Defined.

(** C3 does not hold of the code: each query operation opens a connection
    and then raises on its first use of the cursor.  No statement reaches
    the server (the connection has begun no transaction), no rows are
    returned, and the connection is left open. *)
Theorem select_operations_raise (w : world) :
  server_database w = "news" →
  select_three_most_viewed_articles w = (opened w, Raised no_execute) ∧
  select_most_viewed_authors w = (opened w, Raised no_execute) ∧
  select_daily_error_rate_more_than_one_percent w
    = (opened w, Raised no_execute) ∧
  connections (opened w) !! length (connections w)
    = Some (ConnectionState false Idle).
Proof.
  intros Hnews.
  rewrite select_three_most_viewed_articles_eq, select_most_viewed_authors_eq,
    select_daily_error_rate_more_than_one_percent_eq, !decide_True by done.
  split_and!; try done.
  simpl. by rewrite lookup_app_r, Nat.sub_diag.
Qed.

Lemma select_operations_raise_witness :
  select_three_most_viewed_articles
    (news_world one_day_db
       [View_most_viewed_paths; View_most_viewed_articles; View_daily_error_rates])
  = (opened (news_world one_day_db
       [View_most_viewed_paths; View_most_viewed_articles; View_daily_error_rates]),
     Raised no_execute).
Proof.
  apply (select_operations_raise
           (news_world one_day_db
              [View_most_viewed_paths; View_most_viewed_articles;
               View_daily_error_rates])).
  reflexivity.
Defined.

(** C6 does not hold of the code: [initialize_views] raises on its first
    statement, whether the views exist or not, the first time and the
    second; it never reaches [commit], and the committed views stay what
    they were. *)
Theorem initialize_views_raises_each_time (w : world) :
  server_database w = "news" →
  initialize_views w = (opened w, Raised no_execute) ∧
  initialize_views (opened w) = (opened (opened w), Raised no_execute) ∧
  views (opened (opened w)) = views w.
Proof.
  intros Hnews. rewrite !initialize_views_eq, !decide_True by done. done.
Qed.

Lemma initialize_views_raises_each_time_witness :
  initialize_views
    (news_world one_day_db
       [View_most_viewed_paths; View_most_viewed_articles; View_daily_error_rates])
  = (opened (news_world one_day_db
       [View_most_viewed_paths; View_most_viewed_articles; View_daily_error_rates]),
     Raised no_execute).
Proof.
  apply (initialize_views_raises_each_time
           (news_world one_day_db
              [View_most_viewed_paths; View_most_viewed_articles;
               View_daily_error_rates])).
  reflexivity.
Defined.

(** C7: when [initialize_views] fails, the committed views are the ones
    from before the call: no statement sent through a cursor changes them,
    nor does closing the connection; only [commit] would. *)
Theorem initialize_views_all_or_nothing (w w' : world) (e : exception) :
  initialize_views w = (w', Raised e) →
  views w' = views w ∧
  tables w' = tables w ∧
  (∀ R (q : statement R) cursor w0, views (execute cursor q w0).1 = views w0) ∧
  (∀ conn w0, views (close conn w0).1 = views w0).
Proof.
  rewrite initialize_views_eq. intros H.
  split_and!; [| |apply @execute_views|apply close_views];
    case_decide; by simplify_eq.
Qed.

Lemma initialize_views_all_or_nothing_witness :
  views (opened (news_world one_day_db [View_most_viewed_paths]))
    = [View_most_viewed_paths].
Proof.
  apply (initialize_views_all_or_nothing
           (news_world one_day_db [View_most_viewed_paths]) _ no_execute).
  reflexivity.
Defined.

(** ** The reports *)

Lemma set_stdout_set_stdout out out' w :
  set_stdout out (set_stdout out' w) = set_stdout out w.
Proof. done. Qed.

Lemma set_stdout_same w : set_stdout (stdout w) w = w.
Proof. by destruct w. Qed.

Lemma for_each_print {A} (line : A → string) (rows : list A) w :
  for_each rows (λ row, print (line row)) w =
    (set_stdout (stdout w ++ (line <$> rows)) w, Returned tt).
Proof.
  revert w. induction rows as [|row rows IH]; intros w; simpl.
  - by rewrite app_nil_r, set_stdout_same.
  - unfold mbind, Py_bind, print at 1. rewrite IH. simpl.
    by rewrite set_stdout_set_stdout, <-app_assoc.
Qed.

Section report_over.
Context {A : Type} (header : string) (line : A → string).
Context (select : Py (list A)).

(** The shape the three procedures share. *)
Lemma report_over_returned w w' rows :
  select (set_stdout (stdout w ++ [header]) w) = (w', Returned rows) →
  (print header;;
   rows ← select;
   for_each rows (λ row, print (line row));;
   print EmptyString) w =
    (set_stdout (stdout w' ++ (line <$> rows) ++ [EmptyString]) w',
     Returned tt).
Proof.
  intros Hsel. unfold mbind, Py_bind, print at 1. rewrite Hsel.
  rewrite for_each_print. unfold print. simpl.
  by rewrite set_stdout_set_stdout, <-app_assoc.
Qed.

Lemma report_over_raised w w' e :
  select (set_stdout (stdout w ++ [header]) w) = (w', Raised e) →
  (print header;;
   rows ← select;
   for_each rows (λ row, print (line row));;
   print EmptyString) w = (w', Raised e).
Proof. intros Hsel. unfold mbind, Py_bind, print at 1. by rewrite Hsel. Qed.
End report_over.

(** Rounding to one decimal: the coefficient is a nearest number of tenths. *)
Lemma round_half_even_nearest (n : Z) (d : positive) :
  (Z.abs (2 * (round_half_even n d * Z.pos d - n)) ≤ Z.pos d)%Z.
Proof.
  unfold round_half_even.
  pose proof (Z.div_mod n (Z.pos d) ltac:(lia)) as Hdm.
  pose proof (Z.mod_pos_bound n (Z.pos d) ltac:(lia)) as Hr.
  repeat case_decide; [nia|nia|].
  destruct (Z.even _); nia.
Qed.

Lemma round1_nearest (x : Q) :
  (Qabs (inject_Z (round1 x).2 / 10 - Qabs x) <= 1 # 20)%Q.
Proof.
  pose proof (round_half_even_nearest (10 * Z.abs (Qnum x)) (Qden x)) as H.
  unfold round1. simpl snd.
  set (t := round_half_even _ _) in *. clearbody t.
  destruct x as [n d]. simpl in *.
  unfold Qle, Qabs, Qminus, Qplus, Qopp, Qdiv, Qmult, Qinv, inject_Z. simpl.
  rewrite !Pos2Z.inj_mul. lia.
Qed.

Lemma round_half_even_tie (n : Z) (d : positive) :
  Z.abs (2 * (round_half_even n d * Z.pos d - n)) = Z.pos d →
  Z.even (round_half_even n d) = true.
Proof.
  unfold round_half_even.
  pose proof (Z.div_mod n (Z.pos d) ltac:(lia)) as Hdm.
  pose proof (Z.mod_pos_bound n (Z.pos d) ltac:(lia)) as Hr.
  repeat case_decide; [nia|nia|]. intros _.
  destruct (Z.even (n / Z.pos d)) eqn:E; [done|].
  by rewrite Z.even_add, E.
Qed.

(** Rounding a rate that is not negative: no sign, and the coefficient is
    the number of tenths nearest to the rate, the even one of two that are
    equally near. *)
Lemma round1_nonneg (x : Q) :
  (0 <= x)%Q →
  (round1 x).1 = false ∧
  (0 ≤ (round1 x).2)%Z ∧
  (Qabs (inject_Z (round1 x).2 / 10 - x) <= 1 # 20)%Q ∧
  ((Qabs (inject_Z (round1 x).2 / 10 - x) == 1 # 20)%Q →
   Z.even (round1 x).2 = true).
Proof.
  intros Hx. destruct x as [n d]. unfold Qle in Hx. simpl in Hx.
  assert (0 ≤ n)%Z as Hn by lia. unfold round1. simpl fst. simpl snd.
  rewrite (Z.abs_eq n) by done.
  pose proof (round_half_even_nearest (10 * n) d) as Hnear.
  pose proof (round_half_even_tie (10 * n) d) as Htie.
  assert (0 ≤ round_half_even (10 * n) d)%Z as Hpos by nia.
  set (c := round_half_even (10 * n) d) in *. clearbody c.
  split_and!.
  - apply Z.ltb_ge. lia.
  - done.
  - unfold Qle, Qabs, Qminus, Qplus, Qopp, Qdiv, Qmult, Qinv, inject_Z. simpl.
    rewrite !Pos2Z.inj_mul. lia.
  - intros Heq. apply Htie. revert Heq.
    unfold Qeq, Qabs, Qminus, Qplus, Qopp, Qdiv, Qmult, Qinv, inject_Z. simpl.
    rewrite !Pos2Z.inj_mul. lia.
Qed.

Lemma month_name_table (m : nat) :
  1 ≤ m ≤ 12 →
  month_name m =
    nth (m - 1)
      ["January"; "February"; "March"; "April"; "May"; "June"; "July";
       "August"; "September"; "October"; "November"; "December"] EmptyString.
Proof.
  intros Hm. do 13 (destruct m as [|m]; [done || lia|]). lia.
Qed.

Lemma zero_pad_day (d : nat) :
  1 ≤ d ≤ 31 →
  zero_pad 2 d = if decide (d < 10) then "0" +:+ pretty d else pretty d.
Proof.
  intros Hd. do 32 (destruct d as [|d]; [by vm_compute || lia|]). lia.
Qed.

Lemma year_on_four_digits (y : nat) :
  1000 ≤ y < 10 * 1000 → String.length (pretty y) = 4.
Proof.
  intros Hy.
  assert (forallb (λ y, String.length (pretty y) =? 4) (seq 1000 (9 * 1000))
          = true) as Hall by (vm_compute; reflexivity).
  rewrite forallb_forall in Hall. apply Nat.eqb_eq, Hall, in_seq. lia.
Qed.

(** C8, as the code has it: whatever rows the query operation of a report
    returns, the procedure prints the numbered header first, then one line
    per row in the order of the rows, then an empty line.  An article line
    is a double quote, the title, a double quote, [" --- "], the views and
    [" views"]; an author line is the name, [" --- "], the views and
    [" views"]; an error-rate line is the English name of the month, the
    day on two digits, a comma, the year in decimal without leading zeros
    (four digits from year 1000 to year 9999), [" --- "], the rate rounded to
    the nearest tenth (to the even tenth when two are equally near) with
    one digit after the point, and ["% errors"]. *)
Theorem reports_print_header_rows_and_blank_line :
  (∀ select w w' (articles : list (string * Z)),
     select (set_stdout
               (stdout w ++ ["1. The most popular three articles of all time:"]) w)
       = (w', Returned articles) →
     print_three_most_viewed_articles_over select w =
       (set_stdout (stdout w' ++ (article_line <$> articles) ++ [EmptyString]) w',
        Returned tt)) ∧
  (∀ select w w' (authors : list (string * Z)),
     select (set_stdout
               (stdout w ++ ["2. The most popular article authors of all time:"]) w)
       = (w', Returned authors) →
     print_most_viewed_authors_over select w =
       (set_stdout (stdout w' ++ (author_line <$> authors) ++ [EmptyString]) w',
        Returned tt)) ∧
  (∀ select w w' (rates : list (timestamp * Q)),
     select (set_stdout
               (stdout w ++
                  ["3. The dates when more than 1% of requests lead to errors:"]) w)
       = (w', Returned rates) →
     print_daily_error_rate_more_than_one_percent_over select w =
       (set_stdout (stdout w' ++ (rate_line <$> rates) ++ [EmptyString]) w',
        Returned tt)) ∧
  (∀ title views,
     article_line (title, views) =
       String "034"%char (title +:+ String "034"%char (" --- " +:+ pretty views +:+ " views"))) ∧
  (∀ name views,
     author_line (name, views) = name +:+ " --- " +:+ pretty views +:+ " views") ∧
  (∀ t x,
     1 ≤ month t ≤ 12 → 1 ≤ day t ≤ 31 → (0 <= x)%Q →
     ∃ c : Z,
       rate_line (t, x) =
         (nth (month t - 1)
            ["January"; "February"; "March"; "April"; "May"; "June"; "July";
             "August"; "September"; "October"; "November"; "December"]
            EmptyString
          +:+ " "
          +:+ (if decide (day t < 10) then "0" +:+ pretty (day t)
               else pretty (day t))
          +:+ ", " +:+ pretty (year t))
         +:+ " --- " +:+ (pretty (c / 10)%Z +:+ "." +:+ pretty (c mod 10)%Z)
         +:+ "% errors" ∧
       (0 ≤ c)%Z ∧
       (Qabs (inject_Z c / 10 - x) <= 1 # 20)%Q ∧
       ((Qabs (inject_Z c / 10 - x) == 1 # 20)%Q → Z.even c = true) ∧
       (1000 ≤ year t < 10 * 1000 → String.length (pretty (year t)) = 4)) ∧
  article_line ("Foo", 5%Z) = String "034"%char ("Foo" +:+ String "034"%char " --- 5 views") ∧
  author_line ("Ann", 7%Z) = "Ann --- 7 views" ∧
  rate_line (at_time 2016 12 25 0 0 0, (2262 # 1000)%Q)
    = "December 25, 2016 --- 2.3% errors" ∧
  rate_line (at_time 999 7 7 0 0 0, (25 # 100)%Q) = "July 07, 999 --- 0.2% errors".
Proof.
  split_and!.
  - intros select w w' articles. apply report_over_returned.
  - intros select w w' authors. apply report_over_returned.
  - intros select w w' rates. apply report_over_returned.
  - done.
  - done.
  - intros t x Hmonth Hday Hx.
    destruct (round1_nonneg x Hx) as (Hsign & Hpos & Hnear & Htie).
    unfold rate_line, strftime_B_d_Y, str_Decimal1. cbn [fst snd].
    destruct (round1 x) as [sign c]. cbn [fst snd] in *.
    subst sign. exists c. split; [|split; [|split; [|split]]]; try done.
    + by rewrite month_name_table, zero_pad_day.
    + apply year_on_four_digits.
  - by vm_compute.
  - by vm_compute.
  - by vm_compute.
  - by vm_compute.
Qed.

Lemma reports_print_header_rows_and_blank_line_witness :
  print_three_most_viewed_articles_over (mret [("Foo", 5%Z); ("Bar", 3%Z)])
    (news_world one_day_db []) =
  (set_stdout
     ["1. The most popular three articles of all time:";
      article_line ("Foo", 5%Z); article_line ("Bar", 3%Z); EmptyString]
     (news_world one_day_db []),
   Returned tt) ∧
  ∃ c : Z,
    rate_line (at_time 2016 7 17 0 0 0, (100 # 6)%Q) =
      ("July" +:+ " " +:+ "17" +:+ ", " +:+ "2016")
        +:+ " --- " +:+ (pretty (c / 10)%Z +:+ "." +:+ pretty (c mod 10)%Z)
        +:+ "% errors" ∧
    (Qabs (inject_Z c / 10 - (100 # 6)) <= 1 # 20)%Q.
Proof.
  destruct reports_print_header_rows_and_blank_line
    as (H & _ & _ & _ & _ & Hrate & _).
  split.
  - apply (H (mret [("Foo", 5%Z); ("Bar", 3%Z)]) (news_world one_day_db [])
             (set_stdout ["1. The most popular three articles of all time:"]
                         (news_world one_day_db []))
             [("Foo", 5%Z); ("Bar", 3%Z)]).
    reflexivity.
  - destruct (Hrate (at_time 2016 7 17 0 0 0) (100 # 6)%Q)
      as (c & Hline & _ & Hnear & _).
    + vm_compute. lia.
    + vm_compute. lia.
    + vm_compute. discriminate.
    + exists c. split; [exact Hline|exact Hnear].
Defined.

(** C8 as stated fails on the year: for a date before the year 1000 the
    line carries three digits where the claim has four. *)
Lemma error_rate_line_year_below_1000 :
  ¬ ∃ yyyy percentage,
      String.length yyyy = 4 ∧
      rate_line (at_time 999 7 7 0 0 0, (25 # 100)%Q)
        = "July 07, " +:+ yyyy +:+ " --- " +:+ percentage +:+ "% errors".
Proof.
  intros (yyyy & percentage & Hlen & Hline).
  destruct yyyy as [|a [|b [|c [|d [|e yyyy]]]]]; try discriminate Hlen.
  vm_compute in Hline. discriminate Hline.
Qed.

(** With the repository's own query operations the procedures print their
    header and stop: the operation raises. *)
Lemma print_three_most_viewed_articles_raises w :
  server_database w = "news" →
  print_three_most_viewed_articles w =
    (opened (set_stdout
               (stdout w ++ ["1. The most popular three articles of all time:"]) w),
     Raised no_execute).
Proof.
  intros Hnews. apply report_over_raised.
  rewrite select_three_most_viewed_articles_eq. by rewrite decide_True.
Qed.

(** The whole script stops in [initialize_views], before any report. *)
Lemma main_raises w :
  server_database w = "news" → main w = (opened w, Raised no_execute).
Proof.
  intros Hnews. unfold main, mbind, Py_bind.
  rewrite initialize_views_eq. by rewrite decide_True.
Qed.

(** ** What a cursor would have done

    The driver layer gives a meaning to the statements on a cursor object,
    the object [conn.cursor()] yields.  The script never makes one; these
    lemmas record what its statements do on one. *)

Lemma call_cursor_returns_a_cursor n c w :
  connections w !! n = Some c → conn_closed c = false →
  call_cursor (Method (Connection n) "cursor") w = (w, Returned (Cursor n)).
Proof.
  intros Hn Hopen. unfold call_cursor, with_connection. by rewrite Hn, Hopen.
Qed.

Lemma lookup_set_transaction n t c w :
  connections w !! n = Some c →
  connections (set_transaction n t w) !! n = Some (ConnectionState false t).
Proof.
  intros Hn. simpl. apply list_lookup_insert_eq.
  apply (lookup_lt_Some _ _ _ Hn).
Qed.

(** A statement on a cursor: it runs in the transaction of the connection
    and returns the rows of the statement on the tables, when the views it
    reads are visible. *)
Lemma execute_on_cursor {R} (q : statement R) n t w :
  connections w !! n = Some (ConnectionState false t) →
  t ≠ Aborted →
  let visible := match t with InTransaction vs => vs | _ => views w end in
  stmt_reads q ⊆ visible →
  execute (Cursor n) q w =
    (set_transaction n (InTransaction (visible_after q visible)) w,
     Returned (stmt_rows q (tables w))).
Proof.
  intros Hn Ht visible Hreads.
  unfold execute, getattr, mbind, Py_bind, server_execute, with_connection.
  simpl. rewrite Hn. simpl. destruct t; [|by rewrite decide_True|done].
  by rewrite decide_True.
Qed.

Lemma commit_on_connection n vs w :
  connections w !! n = Some (ConnectionState false (InTransaction vs)) →
  commit (Connection n) w = (set_views vs (set_transaction n Idle w), Returned tt).
Proof.
  intros Hn. unfold commit, getattr, mbind, Py_bind, server_commit,
    with_connection. simpl. by rewrite Hn.
Qed.

(** The three view statements and the commit, sent through a cursor in one
    transaction: they succeed, afterwards the three views exist beside the
    ones that were there, and sending them again changes nothing. *)
Lemma view_statements_on_a_cursor n w :
  let run : Py unit :=
    execute (Cursor n) query_initialize_view_most_viewed_paths;;
    execute (Cursor n) query_initialize_view_most_viewed_articles;;
    execute (Cursor n) query_initialize_view_daily_error_rates;;
    commit (Connection n) in
  connections w !! n = Some (ConnectionState false Idle) →
  ∃ w1 w2,
    run w = (w1, Returned tt) ∧ run w1 = (w2, Returned tt) ∧
    (∀ v, v ∈ views w1) ∧ (∀ v, v ∈ views w → v ∈ views w1) ∧
    views w2 = views w1 ∧ tables w1 = tables w.
Proof.
  intros run Hn.
  assert (∀ w0, connections w0 !! n = Some (ConnectionState false Idle) →
    run w0 =
      (set_views
         (visible_after query_initialize_view_daily_error_rates
            (visible_after query_initialize_view_most_viewed_articles
               (visible_after query_initialize_view_most_viewed_paths (views w0))))
         (set_transaction n Idle
            (set_transaction n (InTransaction
               (visible_after query_initialize_view_daily_error_rates
                  (visible_after query_initialize_view_most_viewed_articles
                     (visible_after query_initialize_view_most_viewed_paths
                        (views w0)))))
            (set_transaction n (InTransaction
               (visible_after query_initialize_view_most_viewed_articles
                  (visible_after query_initialize_view_most_viewed_paths
                     (views w0))))
            (set_transaction n (InTransaction
               (visible_after query_initialize_view_most_viewed_paths (views w0)))
               w0)))),
       Returned tt)) as Hrun.
  { intros w0 H0. unfold run, mbind, Py_bind.
    erewrite (execute_on_cursor query_initialize_view_most_viewed_paths);
      [|exact H0|done|by intros v Hv; inv Hv].
    erewrite (execute_on_cursor query_initialize_view_most_viewed_articles);
      [|by eapply lookup_set_transaction|done|].
    2:{ simpl. unfold visible_after. simpl.
        intros v Hv. apply list_elem_of_singleton in Hv as ->.
        case_decide; [done|left]. }
    erewrite (execute_on_cursor query_initialize_view_daily_error_rates);
      [|repeat eapply lookup_set_transaction; exact H0|done
       |by intros v Hv; inv Hv].
    erewrite commit_on_connection; [done|].
    repeat eapply lookup_set_transaction; exact H0. }
  eexists _, _. split; [by apply Hrun|].
  set (V := visible_after query_initialize_view_daily_error_rates
              (visible_after query_initialize_view_most_viewed_articles
                 (visible_after query_initialize_view_most_viewed_paths
                    (views w)))).
  assert (∀ v, v ∈ V) as Hall.
  { intros v. unfold V, visible_after. simpl.
    destruct v; repeat case_decide;
      repeat first [done | apply list_elem_of_here | apply list_elem_of_further]. }
  assert (∀ v, v ∈ views w → v ∈ V) as Hkept.
  { intros v Hv. unfold V, visible_after. simpl.
    repeat case_decide; repeat apply list_elem_of_further; done. }
  split_and!.
  - rewrite Hrun; [done|]. simpl.
    rewrite !list_insert_insert_eq. apply list_lookup_insert_eq.
    apply (lookup_lt_Some _ _ _ Hn).
  - done.
  - done.
  - simpl. fold V. clearbody V. unfold visible_after. simpl.
    rewrite (decide_True (P := View_most_viewed_paths ∈ V)) by apply Hall.
    rewrite (decide_True (P := View_most_viewed_articles ∈ V)) by apply Hall.
    by rewrite (decide_True (P := View_daily_error_rates ∈ V)) by apply Hall.
  - done.
Qed.

(** * Further properties of the statements and of the script *)

(** ** Sums over groups *)

Lemma sum_list_cons (x : nat) (l : list nat) :
  sum_list (x :: l) = x + sum_list l.
Proof. done. Qed.

Section sum_by_keys.
Context {A K : Type} `{EqDecision K} (key : A → K) (f : A → nat).

Lemma sum_list_indicator_absent (x : K) (c : nat) (ks : list K) :
  x ∉ ks → sum_list ((λ k, if decide (x = k) then c else 0) <$> ks) = 0.
Proof.
  induction ks as [|k ks IH]; [done|]. intros Hx%not_elem_of_cons.
  rewrite fmap_cons, sum_list_cons, decide_False, IH by tauto. done.
Qed.

Lemma sum_list_indicator (x : K) (c : nat) (ks : list K) :
  NoDup ks → x ∈ ks →
  sum_list ((λ k, if decide (x = k) then c else 0) <$> ks) = c.
Proof.
  induction 1 as [|k ks Hk Hnd IH]; intros Hx; [inv Hx|].
  rewrite fmap_cons, sum_list_cons. case_decide as Heq.
  - subst k. rewrite sum_list_indicator_absent by done. lia.
  - apply elem_of_cons in Hx as [?|Hx]; [done|]. by rewrite IH.
Qed.

Lemma sum_by_keys (ks : list K) (rows : list A) :
  NoDup ks → (∀ r, r ∈ rows → key r ∈ ks) →
  sum_list ((λ k, sum_list (f <$> filter (λ r, key r = k) rows)) <$> ks)
    = sum_list (f <$> rows).
Proof.
  intros Hnd. induction rows as [|r rows IH]; intros Hkeys.
  - clear. induction ks as [|k ks IHks]; [done|].
    by rewrite fmap_cons, sum_list_cons, IHks.
  - rewrite fmap_cons, sum_list_cons.
    rewrite <-IH by (intros; apply Hkeys; by right).
    rewrite <-(sum_list_indicator (key r) (f r) ks Hnd)
      by (apply Hkeys; left).
    clear. induction ks as [|k ks IHks]; [done|].
    rewrite !fmap_cons, !sum_list_cons, IHks, filter_cons.
    case_decide; [rewrite fmap_cons, sum_list_cons|]; lia.
Qed.

Lemma group_by_sum (rows : list A) :
  sum_list ((λ g : K * list A, sum_list (f <$> g.2)) <$> group_by key rows)
    = sum_list (f <$> rows).
Proof.
  unfold group_by. rewrite <-list_fmap_compose.
  rewrite <-(sum_by_keys (remove_dups (key <$> rows)) rows).
  - done.
  - apply NoDup_remove_dups.
  - intros r Hr. apply elem_of_remove_dups. by apply list_elem_of_fmap_2.
Qed.
End sum_by_keys.

(** ** The page-view views *)

Lemma elem_of_most_viewed_paths db p n :
  MostViewedPathsRow p n ∈ most_viewed_paths db ↔
    p ∈ log_path <$> log db ∧
    n = length (filter (λ r, log_path r = p) (log db)).
Proof.
  unfold most_viewed_paths. rewrite elem_of_order_by_desc, list_elem_of_fmap.
  split.
  - intros ([k g] & [= -> ->] & Hg). by apply elem_of_group_by in Hg as [? ->].
  - intros [Hp ->]. eexists (p, _). split; [done|]. by apply elem_of_group_by.
Qed.

Lemma path_hits_pos db p :
  p ∈ log_path <$> log db ↔ 0 < length (filter (λ r, log_path r = p) (log db)).
Proof.
  split.
  - intros (r & -> & Hr)%list_elem_of_fmap.
    assert (r ∈ filter (λ r0, log_path r0 = log_path r) (log db)) as Hin
      by (by apply list_elem_of_filter).
    destruct (filter _ (log db)); [inv Hin|simpl; lia].
  - intros Hpos. destruct (filter _ (log db)) as [|r g] eqn:E; [simpl in Hpos; lia|].
    assert (r ∈ filter (λ r0, log_path r0 = p) (log db)) as Hin
      by (rewrite E; left).
    apply list_elem_of_filter in Hin as [<- Hr]. by apply list_elem_of_fmap_2.
Qed.

(** X1: [most_viewed_paths] has one row per path that occurs in [log]; its
    [pv] is the number of log rows with that path, at least one; the rows
    are in non-increasing order of [pv]; and the [pv] of all rows add up to
    the number of log rows. *)
Theorem most_viewed_paths_counts_every_request (db : database) :
  NoDup (mvp_path <$> most_viewed_paths db) ∧
  (∀ p n, MostViewedPathsRow p n ∈ most_viewed_paths db ↔
     0 < n ∧ n = length (filter (λ r, log_path r = p) (log db))) ∧
  StronglySorted (λ a b, mvp_pv b ≤ mvp_pv a) (most_viewed_paths db) ∧
  sum_list (mvp_pv <$> most_viewed_paths db) = length (log db).
Proof.
  split_and!.
  - unfold most_viewed_paths. rewrite order_by_desc_perm, <-list_fmap_compose.
    erewrite list_fmap_ext; [apply (group_by_NoDup log_path (log db))|by intros ? []].
  - intros p n. rewrite elem_of_most_viewed_paths, path_hits_pos.
    split; intros [? ->]; done.
  - apply order_by_desc_sorted.
  - unfold most_viewed_paths. rewrite order_by_desc_perm, <-list_fmap_compose.
    pose proof (group_by_sum log_path (λ _, 1) (log db)) as Hsum.
    rewrite sum_list_fmap_const in Hsum. rewrite Nat.mul_1_r in Hsum.
    rewrite <-Hsum. f_equal. apply list_fmap_ext. intros _ [k g] _. simpl.
    by rewrite sum_list_fmap_const, Nat.mul_1_r.
Qed.

Lemma elem_of_most_viewed_articles
    (db : database) (row : most_viewed_articles_row) :
  row ∈ most_viewed_articles db ↔
    ∃ a, a ∈ articles db ∧
         mva_title row = articles_title a ∧
         mva_author_id row = articles_author a ∧
         mva_pv row =
           length (filter (λ r, log_path r = "/article/" +:+ articles_slug a)
                     (log db)) ∧
         0 < mva_pv row.
Proof.
  unfold most_viewed_articles. rewrite elem_of_order_by_desc, list_elem_of_bind.
  split.
  - intros (a & Hin & Ha). apply list_elem_of_bind in Hin as ([p n] & Hin & Hp).
    simpl in Hin. case_decide as Hpath; [|inv Hin].
    apply list_elem_of_singleton in Hin as ->. simpl.
    apply elem_of_most_viewed_paths in Hp as [Hp ->].
    exists a. rewrite Hpath. split_and!; try done. by apply path_hits_pos.
  - intros (a & Ha & Htitle & Hauthor & Hpv & Hpos). exists a. split; [|done].
    apply list_elem_of_bind.
    exists (MostViewedPathsRow ("/article/" +:+ articles_slug a) (mva_pv row)).
    simpl. rewrite decide_True by done. split.
    + destruct row; simpl in *; subst. left.
    + apply elem_of_most_viewed_paths. split; [|done].
      apply path_hits_pos. by rewrite <-Hpv.
Qed.

(** X2: a row of [most_viewed_articles] is an article of [articles] with
    its title and author, and the number of log rows whose path is
    ['/article/'] followed by its slug; an article without such a log row
    has no row, and log rows of other paths count for nothing. *)
Theorem most_viewed_articles_are_the_requested_articles
    (db : database) (row : most_viewed_articles_row) :
  row ∈ most_viewed_articles db ↔
    ∃ a, a ∈ articles db ∧
         mva_title row = articles_title a ∧
         mva_author_id row = articles_author a ∧
         mva_pv row =
           length (filter (λ r, log_path r = "/article/" +:+ articles_slug a)
                     (log db)) ∧
         0 < mva_pv row.
Proof. apply elem_of_most_viewed_articles. Qed.

(** X3: the query of the first report returns three rows when the view has
    at least three and all of them otherwise; each is the title and [pv] of
    a row of the view; and no row it leaves out has more views than a row
    it returns. *)
Theorem top_articles_are_the_most_viewed (db : database) :
  let rows := stmt_rows query_select_three_most_viewed_articles db in
  length rows = min 3 (length (most_viewed_articles db)) ∧
  (∀ row, row ∈ rows →
     ∃ m, m ∈ most_viewed_articles db ∧ row = (mva_title m, Z.of_nat (mva_pv m))) ∧
  (∀ row m, row ∈ rows → m ∈ drop 3 (most_viewed_articles db) →
     (Z.of_nat (mva_pv m) ≤ row.2)%Z).
Proof.
  simpl. unfold select_three_most_viewed_articles_rows.
  rewrite <-fmap_take. split_and!.
  - by rewrite length_fmap, length_take.
  - intros row (m & -> & Hm)%list_elem_of_fmap. exists m. split; [|done].
    eapply elem_of_sublist; [done|apply sublist_take].
  - intros row m (m' & -> & Hm')%list_elem_of_fmap Hm. simpl.
    pose proof (most_viewed_articles_sorted db) as Hs.
    rewrite <-(take_drop 3 (most_viewed_articles db)) in Hs.
    pose proof (StronglySorted_app_1_elem_of _ _ _ _ _ Hs Hm' Hm) as Hle.
    unfold desc_by in Hle. lia.
Qed.

(** ** The error-rate view and the third report *)

Lemma error_rate_above_one g :
  g ≠ [] → (1 < error_rate g)%Q ↔ count_star g < 100 * count_not_found g.
Proof.
  intros Hg. rewrite error_rate_as_fraction by done.
  assert (0 < count_star g) by (destruct g; simpl; [done|lia]).
  unfold Qlt. simpl. rewrite Pos2Z.inj_mul, !Z.mul_1_l, !Z.mul_1_r.
  rewrite <-positive_nat_Z, !Nat2Pos.id by lia. lia.
Qed.

Lemma elem_of_high_error_days db d x :
  (d, x) ∈ select_daily_error_rate_more_than_one_percent_rows db ↔
    rows_of_day d (log db) ≠ [] ∧
    x = error_rate (rows_of_day d (log db)) ∧
    count_star (rows_of_day d (log db))
      < 100 * count_not_found (rows_of_day d (log db)).
Proof.
  unfold select_daily_error_rate_more_than_one_percent_rows.
  rewrite list_elem_of_fmap. split.
  - intros ([d' x'] & [= -> ->] & Hin).
    apply elem_of_order_by_date, list_elem_of_filter in Hin as [Hgt Hin].
    apply elem_of_daily_error_rates in Hin as [Hd Hx]. simpl in *.
    apply rows_of_day_nonempty in Hd. subst x'.
    split_and!; [done..|]. by apply error_rate_above_one.
  - intros (Hne & -> & Hlt). eexists (DailyErrorRatesRow d _). split; [done|].
    apply elem_of_order_by_date, list_elem_of_filter. simpl. split.
    + by apply error_rate_above_one.
    + apply elem_of_daily_error_rates. split; [|done].
      by apply rows_of_day_nonempty.
Qed.

Lemma length_remove_dups_le {A} `{EqDecision A} (l : list A) :
  length (remove_dups l) ≤ length l.
Proof.
  induction l as [|x l IH]; [done|]. simpl. case_decide; simpl; lia.
Qed.

(** X4: [daily_error_rates] comes in strictly increasing order of date, so
    no day occurs twice, and it has at most as many rows as [log]. *)
Theorem daily_error_rates_in_date_order (db : database) :
  StronglySorted (λ a b, timestamp_lt (der_date a) (der_date b))
    (daily_error_rates db) ∧
  length (daily_error_rates db) ≤ length (log db).
Proof.
  split.
  - apply StronglySorted_strict; [apply order_by_date_sorted|].
    apply daily_error_rates_NoDup.
  - rewrite <-(length_fmap der_date), daily_error_rates_dates.
    rewrite <-(length_fmap (λ r, date_trunc_day (log_time r)) (log db)).
    apply length_remove_dups_le.
Qed.

(** X5: the third query reports a day exactly when more than one in a
    hundred of its log rows has status ['404 NOT FOUND']; a day at exactly
    one percent is not reported, nor is a day without log rows. *)
Theorem high_error_days_threshold (db : database) (d : timestamp) :
  let rows := stmt_rows query_select_daily_error_rate_more_than_one_percent db in
  let day := rows_of_day d (log db) in
  (d ∈ rows.*1 ↔ count_star day < 100 * count_not_found day) ∧
  (count_star day = 100 * count_not_found day → d ∉ rows.*1).
Proof.
  simpl.
  assert (d ∈ (select_daily_error_rate_more_than_one_percent_rows db).*1 ↔
          count_star (rows_of_day d (log db))
            < 100 * count_not_found (rows_of_day d (log db))) as Hiff.
  { rewrite list_elem_of_fmap. split.
    - intros ([d' x] & -> & Hin). by apply elem_of_high_error_days in Hin as (_ & _ & ?).
    - intros Hlt. eexists (d, _). split; [done|].
      apply elem_of_high_error_days. split_and!; [|done..].
      intros Hnil. rewrite Hnil in Hlt. simpl in Hlt. lia. }
  split; [done|]. rewrite Hiff. lia.
Qed.

Lemma round_half_even_bounds (n lo hi : Z) (d : positive) :
  (lo * Z.pos d ≤ n ≤ hi * Z.pos d)%Z →
  (lo ≤ round_half_even n d ≤ hi)%Z.
Proof.
  intros Hn. pose proof (round_half_even_nearest n d) as Hnear. nia.
Qed.

(** X6: the rate printed for a day is never negative and never above one
    hundred: rounded to tenths it lies between 0.0 and 100.0.  For a day of
    the third report it is at least 1.0; and a day whose rate is above one
    percent but below 1.05 percent is reported with the text [1.0]. *)
Theorem printed_error_rate_is_a_percentage (db : database) :
  (∀ row, row ∈ daily_error_rates db →
     (round1 (der_error_rate row)).1 = false ∧
     (0 ≤ (round1 (der_error_rate row)).2 ≤ 1000)%Z) ∧
  (∀ row,
     row ∈ stmt_rows query_select_daily_error_rate_more_than_one_percent db →
     (round1 row.2).1 = false ∧ (10 ≤ (round1 row.2).2 ≤ 1000)%Z) ∧
  (∀ d,
     let day := rows_of_day d (log db) in
     count_star day < 100 * count_not_found day →
     2000 * count_not_found day < 21 * count_star day →
     ∃ x, (d, x) ∈ stmt_rows
                     query_select_daily_error_rate_more_than_one_percent db ∧
          str_Decimal1 (round1 x) = "1.0").
Proof.
  assert (∀ g, g ≠ [] →
    (round1 (error_rate g)).1 = false ∧
    (0 ≤ (round1 (error_rate g)).2 ≤ 1000)%Z ∧
    (count_star g < 100 * count_not_found g →
     (10 ≤ (round1 (error_rate g)).2)%Z) ∧
    (2000 * count_not_found g < 21 * count_star g →
     ((round1 (error_rate g)).2 ≤ 10)%Z)) as Hg.
  { intros g Hne. rewrite error_rate_as_fraction by done.
    pose proof (count_not_found_le g).
    assert (0 < count_star g) by (destruct g; simpl; [done|lia]).
    unfold round1. simpl.
    assert (Z.pos (1 * Pos.of_nat (count_star g)) = Z.of_nat (count_star g)) as Hden.
    { rewrite Pos.mul_1_l, <-positive_nat_Z, Nat2Pos.id by lia. done. }
    split; [|split; [|split]].
    - apply Z.ltb_ge. lia.
    - apply round_half_even_bounds. rewrite Hden. lia.
    - intros Hlt. apply round_half_even_bounds with (hi := 1000%Z).
      rewrite Hden. lia.
    - intros Hlt.
      pose proof (round_half_even_nearest
                    (10 * Z.abs (100 * Z.of_nat (count_not_found g) * 1))
                    (1 * Pos.of_nat (count_star g))) as Hnear.
      rewrite Hden in Hnear. nia. }
  split; [|split].
  - intros row Hrow. apply elem_of_daily_error_rates in Hrow as [Hd ->].
    apply rows_of_day_nonempty in Hd. by apply Hg in Hd as (? & ? & _).
  - intros [d x] (Hne & -> & Hlt)%elem_of_high_error_days. simpl.
    apply Hg in Hne as (? & [_ Hhi] & Hten & _). split; [done|].
    split; [by apply Hten|exact Hhi].
  - intros d day Hlo Hhi.
    assert (day ≠ []) as Hne
      by (intros Hnil; rewrite Hnil in Hlo; simpl in Hlo; lia).
    exists (error_rate day). split.
    + apply elem_of_high_error_days. done.
    + apply Hg in Hne as (Hsign & _ & Hten & Hmost).
      destruct (round1 (error_rate day)) as [sign coeff]. simpl in *.
      assert (coeff = 10%Z) as -> by (specialize (Hten Hlo); specialize (Hmost Hhi); lia).
      by rewrite Hsign.
Qed.

Lemma printed_error_rate_is_a_percentage_witness :
  ∃ x, (at_time 2016 7 17 0 0 0, x)
         ∈ stmt_rows query_select_daily_error_rate_more_than_one_percent
             just_above_one_percent_db ∧
       str_Decimal1 (round1 x) = "1.0".
Proof.
  apply (printed_error_rate_is_a_percentage just_above_one_percent_db).
  - vm_compute. lia.
  - vm_compute. lia.
Defined.

(** ** Empty tables *)

(** X7: without log rows the three views and the three result sets are
    empty; without articles the two page-view reports are empty; without
    authors the authors report is empty. *)
Theorem empty_tables_give_empty_reports (db : database) :
  (log db = [] →
     most_viewed_paths db = [] ∧ most_viewed_articles db = [] ∧
     daily_error_rates db = [] ∧
     stmt_rows query_select_three_most_viewed_articles db = [] ∧
     stmt_rows query_select_most_viewed_authors db = [] ∧
     stmt_rows query_select_daily_error_rate_more_than_one_percent db = []) ∧
  (articles db = [] →
     most_viewed_articles db = [] ∧
     stmt_rows query_select_three_most_viewed_articles db = [] ∧
     stmt_rows query_select_most_viewed_authors db = []) ∧
  (authors db = [] → stmt_rows query_select_most_viewed_authors db = []).
Proof.
  simpl.
  assert (most_viewed_articles db = [] →
          select_three_most_viewed_articles_rows db = [] ∧
          select_most_viewed_authors_rows db = []) as Hmva.
  { intros Hnil. split.
    - unfold select_three_most_viewed_articles_rows. by rewrite Hnil.
    - apply elem_of_nil_inv.
      intros [name total] [Hin _]%elem_of_select_most_viewed_authors_rows.
      apply list_elem_of_fmap in Hin as ([n pv] & _ & Hin).
      apply elem_of_authors_join in Hin as (a & m & _ & Hm & _).
      rewrite Hnil in Hm. inv Hm. }
  split_and!.
  - intros Hlog.
    assert (most_viewed_articles db = []) as Hnil.
    { apply elem_of_nil_inv.
      intros row (a & _ & _ & _ & Hpv & Hpos)%elem_of_most_viewed_articles.
      rewrite Hlog in Hpv. simpl in Hpv. lia. }
    destruct (Hmva Hnil) as [? ?]. split_and!; try done.
    + unfold most_viewed_paths. by rewrite Hlog.
    + unfold daily_error_rates. by rewrite Hlog.
    + apply elem_of_nil_inv. intros [d x] (Hne & _)%elem_of_high_error_days.
      by rewrite Hlog in Hne.
  - intros Harticles.
    assert (most_viewed_articles db = []) as Hnil.
    { apply elem_of_nil_inv.
      intros row (a & Ha & _)%elem_of_most_viewed_articles.
      rewrite Harticles in Ha. inv Ha. }
    destruct (Hmva Hnil) as [? ?]. done.
  - intros Hauthors. apply elem_of_nil_inv.
    intros [name total] [Hin _]%elem_of_select_most_viewed_authors_rows.
    apply list_elem_of_fmap in Hin as ([n pv] & _ & Hin).
    apply elem_of_authors_join in Hin as (a & m & Ha & _).
    rewrite Hauthors in Ha. inv Ha.
Qed.

Lemma empty_tables_give_empty_reports_witness :
  stmt_rows query_select_daily_error_rate_more_than_one_percent
    (Database [] (articles tie_db) (authors tie_db)) = [] ∧
  stmt_rows query_select_most_viewed_authors
    (Database (log tie_db) [] (authors tie_db)) = [] ∧
  stmt_rows query_select_most_viewed_authors
    (Database (log tie_db) (articles tie_db) []) = [].
Proof.
  split_and!.
  - destruct (empty_tables_give_empty_reports
                (Database [] (articles tie_db) (authors tie_db)))
      as (H & _ & _).
    apply H. reflexivity.
  - destruct (empty_tables_give_empty_reports
                (Database (log tie_db) [] (authors tie_db)))
      as (_ & H & _).
    apply H. reflexivity.
  - destruct (empty_tables_give_empty_reports
                (Database (log tie_db) (articles tie_db) []))
      as (_ & _ & H).
    apply H. reflexivity.
Defined.

(** ** The totals of the authors report *)

Lemma sum_list_bind_snd {A B} (g : A → list (B * nat)) (l : list A) :
  sum_list (snd <$> (l ≫= g)) = sum_list ((λ a, sum_list (snd <$> g a)) <$> l).
Proof.
  induction l as [|a l IH]; [done|].
  by rewrite bind_cons, !fmap_app, sum_list_with_app, IH.
Qed.

Lemma foldr_Zadd_totals (l : list (string * nat)) :
  foldr Z.add 0%Z ((λ r : string * nat, (r.1, Z.of_nat r.2)) <$> l).*2
    = Z.of_nat (sum_list l.*2).
Proof.
  induction l as [|x l IH]; [done|].
  rewrite !fmap_cons, sum_list_cons. simpl. rewrite IH. lia.
Qed.

Lemma authors_join_total db :
  NoDup (authors_id <$> authors db) →
  (∀ m, m ∈ most_viewed_articles db →
        mva_author_id m ∈ authors_id <$> authors db) →
  sum_list (snd <$> authors_join db) = sum_list (mva_pv <$> most_viewed_articles db).
Proof.
  intros Hnd Hfk. unfold authors_join. rewrite sum_list_bind_snd.
  rewrite <-(sum_by_keys mva_author_id mva_pv (authors_id <$> authors db)
               (most_viewed_articles db) Hnd Hfk).
  rewrite <-list_fmap_compose. f_equal. apply list_fmap_ext.
  intros _ a _. simpl. by rewrite articles_of_sum.
Qed.

(** X8: every row of the authors report has a positive total.  When no
    two rows of [authors] have the same id and every row of
    [most_viewed_articles] carries the id of a row of [authors], the
    totals of the report add up to the views of all the articles of
    [most_viewed_articles]: no view is lost and none is counted twice. *)
Theorem top_authors_totals_add_up (db : database) :
  let rows := stmt_rows query_select_most_viewed_authors db in
  (∀ name total, (name, total) ∈ rows → (0 < total)%Z) ∧
  (NoDup (authors_id <$> authors db) →
   (∀ m, m ∈ most_viewed_articles db →
         mva_author_id m ∈ authors_id <$> authors db) →
   foldr Z.add 0%Z rows.*2
     = Z.of_nat (sum_list (mva_pv <$> most_viewed_articles db))).
Proof.
  simpl. split.
  - intros name total [Hname ->]%elem_of_select_most_viewed_authors_rows.
    apply list_elem_of_fmap in Hname as ([n pv] & -> & Hin). simpl.
    assert (0 < pv) as Hpos.
    { apply elem_of_authors_join in Hin as (a & m & _ & Hm & _ & _ & <-).
      by apply elem_of_most_viewed_articles in Hm as (_ & _ & _ & _ & _ & ?). }
    assert ((n, pv) ∈ filter (λ p : string * nat, p.1 = n) (authors_join db))
      as Hfil by (by apply list_elem_of_filter).
    pose proof (sum_list_with_in _ snd _ Hfil) as Hle. simpl in Hle.
    rewrite sum_list_with_foldr in Hle.
    rewrite sum_list_with_foldr, foldr_fmap. simpl. unfold id. lia.
  - intros Hnd Hfk. unfold select_most_viewed_authors_rows.
    rewrite foldr_Zadd_totals. f_equal.
    rewrite order_by_desc_perm, <-list_fmap_compose.
    rewrite <-(authors_join_total db Hnd Hfk).
    rewrite <-(group_by_sum fst snd (authors_join db)). done.
Qed.

Lemma top_authors_totals_add_up_witness :
  foldr Z.add 0%Z (stmt_rows query_select_most_viewed_authors namesake_db).*2
    = Z.of_nat (sum_list (mva_pv <$> most_viewed_articles namesake_db)).
Proof.
  apply (top_authors_totals_add_up namesake_db).
  - apply (bool_decide_unpack (NoDup (authors_id <$> authors namesake_db))).
    vm_compute. reflexivity.
  - apply Forall_forall. apply (bool_decide_unpack _). vm_compute. reflexivity.
Defined.

(** ** The script as a whole *)

(** X9: [connect] neither swallows nor changes an exception: its
    [try ... except psycopg2.Error as e: raise e] raises what the body
    raised, so [connect] behaves as its body alone.  A name other than the
    hosted database raises the driver's error and makes no connection. *)
Theorem connect_reraises_unchanged (db_name : string) (w : world) :
  (∀ A (body : Py A) w0,
     try_except body is_psycopg2_Error (λ e, raise e) w0 = body w0) ∧
  connect db_name w =
    (conn ← psycopg2_connect db_name;
     cursor ← getattr conn "cursor";
     mret (conn, cursor)) w ∧
  (db_name ≠ server_database w →
   connect db_name w = (w, Raised OperationalError)).
Proof.
  assert (∀ A (body : Py A) w0,
     try_except body is_psycopg2_Error (λ e, raise e) w0 = body w0) as Htry.
  { intros A body w0. unfold try_except.
    destruct (body w0) as [w1 [a|e]]; [done|]. by destruct (is_psycopg2_Error e). }
  split_and!; [done|apply Htry|].
  intros Hne. rewrite connect_eq. by rewrite decide_False.
Qed.

Lemma connect_reraises_unchanged_witness :
  connect "news" other_world = (other_world, Raised OperationalError).
Proof.
  apply (connect_reraises_unchanged "news" other_world). vm_compute. discriminate.
Defined.

(** X10: when the database [news] cannot be reached, [initialize_views],
    the three query operations and the whole script raise the driver's
    error and leave the world as it was: no connection, no output. *)
Theorem operations_propagate_the_connection_error (w : world) :
  server_database w ≠ "news" →
  initialize_views w = (w, Raised OperationalError) ∧
  select_three_most_viewed_articles w = (w, Raised OperationalError) ∧
  select_most_viewed_authors w = (w, Raised OperationalError) ∧
  select_daily_error_rate_more_than_one_percent w = (w, Raised OperationalError) ∧
  main w = (w, Raised OperationalError).
Proof.
  intros Hne.
  assert (initialize_views w = (w, Raised OperationalError)) as Hinit
    by (rewrite initialize_views_eq; by rewrite decide_False).
  split_and!; [done| | | |].
  - rewrite select_three_most_viewed_articles_eq. by rewrite decide_False.
  - rewrite select_most_viewed_authors_eq. by rewrite decide_False.
  - rewrite select_daily_error_rate_more_than_one_percent_eq.
    by rewrite decide_False.
  - unfold main, mbind, Py_bind. by rewrite Hinit.
Qed.

Lemma operations_propagate_the_connection_error_witness :
  main other_world = (other_world, Raised OperationalError).
Proof.
  apply (operations_propagate_the_connection_error other_world).
  vm_compute. discriminate.
Defined.

(** X11: a report procedure has no handler around its query operation:
    when the operation raises, the header is the only line the procedure
    has printed and the exception goes on to the caller.  With the query
    operations of the script this is what each of the three procedures
    does, on every world. *)
Theorem report_procedures_stop_after_the_header (w : world) :
  (∀ select w' e,
     select (set_stdout
               (stdout w ++ ["1. The most popular three articles of all time:"]) w)
       = (w', Raised e) →
     print_three_most_viewed_articles_over select w = (w', Raised e)) ∧
  (∀ select w' e,
     select (set_stdout
               (stdout w ++ ["2. The most popular article authors of all time:"]) w)
       = (w', Raised e) →
     print_most_viewed_authors_over select w = (w', Raised e)) ∧
  (∀ select w' e,
     select (set_stdout
               (stdout w ++
                  ["3. The dates when more than 1% of requests lead to errors:"]) w)
       = (w', Raised e) →
     print_daily_error_rate_more_than_one_percent_over select w = (w', Raised e)) ∧
  (∃ w' e, print_three_most_viewed_articles w = (w', Raised e) ∧
     stdout w' = stdout w ++ ["1. The most popular three articles of all time:"]) ∧
  (∃ w' e, print_most_viewed_authors w = (w', Raised e) ∧
     stdout w' = stdout w ++ ["2. The most popular article authors of all time:"]) ∧
  (∃ w' e, print_daily_error_rate_more_than_one_percent w = (w', Raised e) ∧
     stdout w' =
       stdout w ++ ["3. The dates when more than 1% of requests lead to errors:"]).
Proof.
  split_and!.
  - intros select w' e. apply report_over_raised.
  - intros select w' e. apply report_over_raised.
  - intros select w' e. apply report_over_raised.
  - destruct (decide ("news" = server_database w)) as [Hnews|Hne];
      eexists _, _; (split; [apply report_over_raised;
        rewrite select_three_most_viewed_articles_eq;
        first [by rewrite decide_True | by rewrite decide_False]|done]).
  - destruct (decide ("news" = server_database w)) as [Hnews|Hne];
      eexists _, _; (split; [apply report_over_raised;
        rewrite select_most_viewed_authors_eq;
        first [by rewrite decide_True | by rewrite decide_False]|done]).
  - destruct (decide ("news" = server_database w)) as [Hnews|Hne];
      eexists _, _; (split; [apply report_over_raised;
        rewrite select_daily_error_rate_more_than_one_percent_eq;
        first [by rewrite decide_True | by rewrite decide_False]|done]).
Qed.

Lemma report_procedures_stop_after_the_header_witness :
  print_three_most_viewed_articles_over (raise ProgrammingError)
    (news_world one_day_db []) =
  (set_stdout ["1. The most popular three articles of all time:"]
     (news_world one_day_db []),
   Raised ProgrammingError).
Proof.
  destruct (report_procedures_stop_after_the_header (news_world one_day_db []))
    as (H & _).
  apply (H (raise ProgrammingError)). reflexivity.
Defined.

(** X12: the script never prints a line and never ends normally: it stops
    in [initialize_views], with the views and the tables as they were and
    at most one connection more, which is left open. *)
Theorem script_prints_nothing (w : world) :
  ∃ w' e,
    main w = (w', Raised e) ∧
    stdout w' = stdout w ∧ views w' = views w ∧ tables w' = tables w ∧
    (connections w' = connections w ∨
     connections w' = connections w ++ [ConnectionState false Idle]).
Proof.
  unfold main, mbind, Py_bind. rewrite initialize_views_eq.
  case_decide; eexists _, _; (split; [done|]); split_and!; auto.
Qed.

(** ** Small article tables *)

Lemma length_bind_selected {A B K} `{EqDecision K}
    (key : A → K) (h : A → B) (s : K) (l : list A) :
  NoDup (key <$> l) →
  length (l ≫= λ p, if decide (s = key p) then [h p] else []) ≤ 1.
Proof.
  induction l as [|p l IH]; [simpl; lia|].
  rewrite fmap_cons, NoDup_cons, bind_cons, length_app. intros [Hp Hnd].
  case_decide as Hs; [|simpl; by apply IH].
  subst s. simpl. clear IH Hnd.
  induction l as [|q l IHl]; [simpl; lia|].
  apply not_elem_of_cons in Hp as [Hq Hp].
  rewrite bind_cons, length_app, decide_False by done. simpl. by apply IHl.
Qed.

Lemma length_bind_le {A B} (g : A → list B) (l : list A) :
  (∀ a, length (g a) ≤ 1) → length (l ≫= g) ≤ length l.
Proof.
  intros Hg. induction l as [|a l IH]; [done|].
  rewrite bind_cons, length_app. specialize (Hg a). simpl. lia.
Qed.

Lemma length_most_viewed_articles db :
  length (most_viewed_articles db) ≤ length (articles db).
Proof.
  unfold most_viewed_articles. rewrite order_by_desc_perm.
  apply length_bind_le. intros a.
  apply (length_bind_selected mvp_path
           (λ p, MostViewedArticlesRow (articles_title a) (articles_author a)
                   (mvp_pv p))).
  unfold most_viewed_paths. rewrite order_by_desc_perm, <-list_fmap_compose.
  erewrite list_fmap_ext; [apply (group_by_NoDup log_path (log db))|by intros ? []].
Qed.

(** X13: [most_viewed_articles] has at most one row per row of
    [articles].  So when [articles] has at most three rows, the first
    report shows every article that was requested, with the number of log
    rows of its path (whatever their status). *)
Theorem few_articles_are_all_reported (db : database) :
  length (most_viewed_articles db) ≤ length (articles db) ∧
  (length (articles db) ≤ 3 →
   ∀ a, a ∈ articles db →
     let n := length (filter (λ r, log_path r = "/article/" +:+ articles_slug a)
                        (log db)) in
     0 < n →
     (articles_title a, Z.of_nat n)
       ∈ stmt_rows query_select_three_most_viewed_articles db).
Proof.
  split; [apply length_most_viewed_articles|].
  intros Hthree a Ha n Hpos. simpl.
  unfold select_three_most_viewed_articles_rows.
  pose proof (length_most_viewed_articles db).
  rewrite take_ge by (rewrite length_fmap; lia).
  apply list_elem_of_fmap.
  exists (MostViewedArticlesRow (articles_title a) (articles_author a) n).
  split; [done|]. apply elem_of_most_viewed_articles. exists a. done.
Qed.

Lemma few_articles_are_all_reported_witness :
  ("Foo", 6%Z) ∈ stmt_rows query_select_three_most_viewed_articles one_day_db.
Proof.
  destruct (few_articles_are_all_reported one_day_db) as [_ H].
  apply (H ltac:(vm_compute; lia) (ArticlesRow "a" "Foo" 1)).
  - apply (bool_decide_unpack _). vm_compute. reflexivity.
  - vm_compute. lia.
Defined.
